(** * Synthetic test-input generation with an LLM

    A shallow embedding of [giskard/llm/generators/base.py]: the abstract
    generator [_BaseLLMGenerator], its template-driven subclass
    [LLMBasedDataGenerator], and the parts of the Python runtime they lean
    on ([json.loads], [str.format], subscripting, truthiness).

    Python strings are modelled by [string], read as the UTF-8 encoding of
    the text; integers by [Z]; floats by the IEEE-754 binary64 values of
    [spec_float]; exceptions by the values of [exn] carried in [res]. *)

From Stdlib Require Import Bool Arith ZArith NArith Lia List Ascii String.
From Stdlib Require Import SpecFloat DecimalString.
Import ListNotations.

Local Open Scope bool_scope.
Local Open Scope list_scope.
Local Open Scope string_scope.

(** ** Exceptions and results

    The built-in exceptions the code can meet, [JSONDecodeError] of the
    [json] module, and [LLMGenerationError] of [giskard.llm.errors] with the
    exception it was raised from.  [OtherError] stands for whatever else a
    collaborator raises. *)

Inductive exn : Type :=
| TypeError
| ValueError
| IndexError
| KeyError (key : string)
| AttributeError (attr : string)
| JSONDecodeError
| LLMGenerationError (msg : string) (cause : exn)
| OtherError (name : string).

Inductive res (A : Type) : Type :=
| Ok (a : A)
| Raise (e : exn).

Arguments Ok {A} a.
Arguments Raise {A} e.

Definition bind {A B : Type} (r : res A) (k : A -> res B) : res B :=
  match r with
  | Ok a => k a
  | Raise e => Raise e
  end.

Declare Scope res_scope.
Delimit Scope res_scope with res.
Notation "x <- r ;; k" := (bind r (fun x => k))
  (at level 61, r at next level, right associativity) : res_scope.
Notation "' pat <- r ;; k" := (bind r (fun x => match x with pat => k end))
  (at level 61, pat pattern, r at next level, right associativity) : res_scope.

(** ** Python values, as [json.loads] builds them *)

#[local] Set Warnings "-register-all".

Inductive pyval : Type :=
| PNone
| PBool (b : bool)
| PInt (n : Z)
| PFloat (f : spec_float)
| PStr (s : string)
| PList (l : list pyval)
| PDict (d : list (string * pyval)).

(** A [dict] keeps its keys in insertion order; assigning to a key that is
    already there replaces the value and leaves the key where it was. *)

Fixpoint dict_get {V : Type} (d : list (string * V)) (k : string) : option V :=
  match d with
  | [] => None
  | (k', v) :: d' => if String.eqb k k' then Some v else dict_get d' k
  end.

Fixpoint dict_set {V : Type} (d : list (string * V)) (k : string) (v : V)
  : list (string * V) :=
  match d with
  | [] => [(k, v)]
  | (k', v') :: d' =>
      if String.eqb k k' then (k', v) :: d' else (k', v') :: dict_set d' k v
  end.

Definition dict_of_pairs {V : Type} (ps : list (string * V)) : list (string * V) :=
  fold_left (fun d kv => dict_set d (fst kv) (snd kv)) ps [].

(** [data[key]] for a string key: only a [dict] can be subscripted by a
    string; a [list] or a [str] wants an integer index and the scalars are
    not subscriptable at all, both of which are a [TypeError]. *)
Definition getitem (data : pyval) (key : string) : res pyval :=
  match data with
  | PDict d =>
      match dict_get d key with
      | Some v => Ok v
      | None => Raise (KeyError key)
      end
  | _ => Raise TypeError
  end.

(** The double quote, and JSON texts written with an apostrophe where the
    text has a double quote. *)
Definition dquote : ascii := "034"%char.

Fixpoint json_text (s : string) : string :=
  match s with
  | String c r => String (if (c =? "'")%char then dquote else c) (json_text r)
  | EmptyString => EmptyString
  end.

(** [sep.join(items)] *)
Fixpoint join (sep : string) (items : list string) : string :=
  match items with
  | [] => ""
  | [x] => x
  | x :: rest => x ++ sep ++ join sep rest
  end.

(** ** [json.loads] on a [str]

    The decoder of the standard library, with its defaults: strict strings,
    the constants [NaN], [Infinity] and [-Infinity] accepted, duplicate
    object keys resolved by assignment order.  Every failure it reports is
    a [JSONDecodeError]; [None] below stands for that failure.  The limits
    of the interpreter itself (its recursion depth, the longest integer
    literal it converts) are not part of the model. *)

Module Json.

Definition is_ws (c : ascii) : bool :=
  (c =? " ")%char || (c =? "009")%char || (c =? "010")%char || (c =? "013")%char.

Fixpoint skip_ws (s : string) : string :=
  match s with
  | String c r => if is_ws c then skip_ws r else s
  | EmptyString => s
  end.

Definition is_digit (c : ascii) : bool :=
  ((48 <=? N_of_ascii c) && (N_of_ascii c <=? 57))%N.

Definition digit_val (c : ascii) : Z := Z.of_N (N_of_ascii c) - 48.

Fixpoint span_digits (s : string) : string * string :=
  match s with
  | String c r =>
      if is_digit c then let (d, r') := span_digits r in (String c d, r')
      else ("", s)
  | EmptyString => ("", "")
  end.

Fixpoint digits_value (acc : Z) (d : string) : Z :=
  match d with
  | String c r => digits_value (10 * acc + digit_val c) r
  | EmptyString => acc
  end.

(** [float(text)] for the decimal [(-1)^neg * m * 10^e]: the nearest
    binary64 value, ties to even, overflow to infinity. *)
Definition float_of_decimal (neg : bool) (m e : Z) : spec_float :=
  match m with
  | Zpos p =>
      if (0 <=? e)%Z
      then binary_normalize 53 1024 ((if neg then Z.opp else id) (m * 10 ^ e)%Z) 0 false
      else SFdiv 53 1024 (S754_finite neg p 0)
                         (S754_finite false (Z.to_pos (10 ^ (- e))) 0)
  | _ => S754_zero neg
  end.

(** The number at the head of [s], as the scanner matches it: an optional
    minus sign, then a single zero or a digit string that does not start
    with zero; then, if present, a point followed by digits; then, if
    present, [e] or [E], an optional sign and digits.  An [int] when there
    is neither fraction nor exponent, a [float] otherwise. *)
Definition match_integer (s : string) : option (string * string) :=
  match s with
  | String c r =>
      if (c =? "0")%char then Some ("0", r)
      else if is_digit c then let (d, r') := span_digits r in Some (String c d, r')
      else None
  | EmptyString => None
  end.

Definition match_frac (s : string) : string * string :=
  match s with
  | String c r =>
      if (c =? ".")%char then
        match span_digits r with
        | (EmptyString, _) => ("", s)
        | (d, r') => (d, r')
        end
      else ("", s)
  | EmptyString => ("", s)
  end.

Definition match_exp (s : string) : option (bool * string) * string :=
  match s with
  | String c r =>
      if (c =? "e")%char || (c =? "E")%char then
        let (neg, r1) :=
          match r with
          | String sg r' =>
              if (sg =? "-")%char then (true, r')
              else if (sg =? "+")%char then (false, r')
              else (false, r)
          | EmptyString => (false, r)
          end in
        match span_digits r1 with
        | (EmptyString, _) => (None, s)
        | (d, r') => (Some (neg, d), r')
        end
      else (None, s)
  | EmptyString => (None, s)
  end.

Definition number_value (neg : bool) (int_part frac : string)
  (exp : option (bool * string)) : pyval :=
  match frac, exp with
  | EmptyString, None =>
      PInt ((if neg then Z.opp else id) (digits_value 0 int_part))
  | _, _ =>
      let e := match exp with
               | Some (eneg, d) => (if eneg then Z.opp else id) (digits_value 0 d)
               | None => 0%Z
               end in
      PFloat (float_of_decimal neg (digits_value 0 (int_part ++ frac))
                (e - Z.of_nat (String.length frac)))
  end.

Definition match_number (s : string) : option (pyval * string) :=
  let (neg, s1) :=
    match s with
    | String c r => if (c =? "-")%char then (true, r) else (false, s)
    | EmptyString => (false, s)
    end in
  match match_integer s1 with
  | None => None
  | Some (int_part, r1) =>
      let (frac, r2) := match_frac r1 in
      let (exp, r3) := match_exp r2 in
      Some (number_value neg int_part frac exp, r3)
  end.

(** Strings: the text after the opening quote, up to the closing one. *)

Definition hex_val (c : ascii) : option N :=
  let n := N_of_ascii c in
  if ((48 <=? n) && (n <=? 57))%N then Some (n - 48)%N
  else if ((97 <=? n) && (n <=? 102))%N then Some (n - 87)%N
  else if ((65 <=? n) && (n <=? 70))%N then Some (n - 55)%N
  else None.

Definition hex4 (h1 h2 h3 h4 : ascii) : option N :=
  match hex_val h1, hex_val h2, hex_val h3, hex_val h4 with
  | Some a, Some b, Some c, Some d => Some (((a * 16 + b) * 16 + c) * 16 + d)%N
  | _, _, _, _ => None
  end.

Definition is_high_surrogate (cp : N) : bool := ((55296 <=? cp) && (cp <=? 56319))%N.
Definition is_low_surrogate (cp : N) : bool := ((56320 <=? cp) && (cp <=? 57343))%N.
Definition join_surrogates (hi lo : N) : N :=
  (65536 + ((hi - 55296) * 1024 + (lo - 56320)))%N.

(** The UTF-8 bytes of a code point (a lone surrogate gets the three-byte
    form, so that distinct Python strings stay distinct). *)
Definition utf8 (cp : N) : string :=
  if (cp <? 128)%N then String (ascii_of_N cp) ""
  else if (cp <? 2048)%N then
    String (ascii_of_N (192 + cp / 64))
      (String (ascii_of_N (128 + cp mod 64)) "")
  else if (cp <? 65536)%N then
    String (ascii_of_N (224 + cp / 4096))
      (String (ascii_of_N (128 + (cp / 64) mod 64))
         (String (ascii_of_N (128 + cp mod 64)) ""))
  else
    String (ascii_of_N (240 + cp / 262144))
      (String (ascii_of_N (128 + (cp / 4096) mod 64))
         (String (ascii_of_N (128 + (cp / 64) mod 64))
            (String (ascii_of_N (128 + cp mod 64)) ""))).

Definition simple_escape (c : ascii) : option ascii :=
  if (c =? "034")%char then Some "034"%char
  else if (c =? "\")%char then Some "\"%char
  else if (c =? "/")%char then Some "/"%char
  else if (c =? "b")%char then Some "008"%char
  else if (c =? "f")%char then Some "012"%char
  else if (c =? "n")%char then Some "010"%char
  else if (c =? "r")%char then Some "013"%char
  else if (c =? "t")%char then Some "009"%char
  else None.

Definition is_control (c : ascii) : bool := (N_of_ascii c <? 32)%N.

Definition prepend (p : string) (r : option (string * string))
  : option (string * string) :=
  match r with
  | Some (s, rest) => Some (p ++ s, rest)
  | None => None
  end.

Fixpoint scanstring (s : string) : option (string * string) :=
  match s with
  | EmptyString => None
  | String c r =>
      if (c =? "034")%char then Some ("", r)
      else if (c =? "\")%char then
        match r with
        | EmptyString => None
        | String e r1 =>
            if (e =? "u")%char then
              match r1 with
              | String h1 (String h2 (String h3 (String h4 r2))) =>
                  match hex4 h1 h2 h3 h4 with
                  | None => None
                  | Some cp =>
                      if is_high_surrogate cp then
                        match r2 with
                        | String b (String u r3) =>
                            if (b =? "\")%char && (u =? "u")%char then
                              match r3 with
                              | String k1 (String k2 (String k3 (String k4 r4))) =>
                                  match hex4 k1 k2 k3 k4 with
                                  | None => None
                                  | Some cp2 =>
                                      if is_low_surrogate cp2
                                      then prepend (utf8 (join_surrogates cp cp2))
                                             (scanstring r4)
                                      else prepend (utf8 cp) (scanstring r2)
                                  end
                              | _ => None
                              end
                            else prepend (utf8 cp) (scanstring r2)
                        | _ => prepend (utf8 cp) (scanstring r2)
                        end
                      else prepend (utf8 cp) (scanstring r2)
                  end
              | _ => None
              end
            else
              match simple_escape e with
              | Some ch => prepend (String ch "") (scanstring r1)
              | None => None
              end
        end
      else if is_control c then None
      else prepend (String c "") (scanstring r)
  end.

Fixpoint strip_prefix (p s : string) : option string :=
  match p with
  | EmptyString => Some s
  | String a p' =>
      match s with
      | String b s' => if (a =? b)%char then strip_prefix p' s' else None
      | EmptyString => None
      end
  end.

(** [scan_once]: one JSON term at the head of the text, and what follows
    it.  The recursion of the decoder is bounded by [fuel]; [loads] gives it
    more than any text can use. *)
Fixpoint scan_once (fuel : nat) (s : string) {struct fuel} : option (pyval * string) :=
  match fuel with
  | O => None
  | S n =>
      match s with
      | EmptyString => None
      | String c r =>
          if (c =? "034")%char then
            match scanstring r with
            | Some (str, r') => Some (PStr str, r')
            | None => None
            end
          else if (c =? "{")%char then
            match skip_ws r with
            | String c1 r1 =>
                if (c1 =? "}")%char then Some (PDict [], r1)
                else
                  match parse_object n (String c1 r1) with
                  | Some (ps, r') => Some (PDict (dict_of_pairs ps), r')
                  | None => None
                  end
            | EmptyString => None
            end
          else if (c =? "[")%char then
            match skip_ws r with
            | String c1 r1 =>
                if (c1 =? "]")%char then Some (PList [], r1)
                else
                  match parse_array n (String c1 r1) with
                  | Some (vs, r') => Some (PList vs, r')
                  | None => None
                  end
            | EmptyString => None
            end
          else
            match strip_prefix "null" s with
            | Some r' => Some (PNone, r')
            | None =>
            match strip_prefix "true" s with
            | Some r' => Some (PBool true, r')
            | None =>
            match strip_prefix "false" s with
            | Some r' => Some (PBool false, r')
            | None =>
            match strip_prefix "NaN" s with
            | Some r' => Some (PFloat S754_nan, r')
            | None =>
            match strip_prefix "Infinity" s with
            | Some r' => Some (PFloat (S754_infinity false), r')
            | None =>
            match strip_prefix "-Infinity" s with
            | Some r' => Some (PFloat (S754_infinity true), r')
            | None => match_number s
            end end end end end end
      end
  end

with parse_array (fuel : nat) (s : string) {struct fuel}
  : option (list pyval * string) :=
  match fuel with
  | O => None
  | S n =>
      match scan_once n s with
      | None => None
      | Some (v, r) =>
          match skip_ws r with
          | String c r1 =>
              if (c =? "]")%char then Some ([v], r1)
              else if (c =? ",")%char then
                match parse_array n (skip_ws r1) with
                | Some (vs, r') => Some (v :: vs, r')
                | None => None
                end
              else None
          | EmptyString => None
          end
      end
  end

with parse_object (fuel : nat) (s : string) {struct fuel}
  : option (list (string * pyval) * string) :=
  match fuel with
  | O => None
  | S n =>
      match s with
      | String q r0 =>
          if (q =? "034")%char then
            match scanstring r0 with
            | None => None
            | Some (key, r) =>
                match skip_ws r with
                | String c r1 =>
                    if (c =? ":")%char then
                      match scan_once n (skip_ws r1) with
                      | None => None
                      | Some (v, r2) =>
                          match skip_ws r2 with
                          | String c2 r3 =>
                              if (c2 =? "}")%char then Some ([(key, v)], r3)
                              else if (c2 =? ",")%char then
                                match parse_object n (skip_ws r3) with
                                | Some (ps, r') => Some ((key, v) :: ps, r')
                                | None => None
                                end
                              else None
                          | EmptyString => None
                          end
                      end
                    else None
                | EmptyString => None
                end
            end
          else None
      | EmptyString => None
      end
  end.

(** U+FEFF at the head of the text is refused before decoding starts.  The
    fuel handed to [scan_once] is more than any text uses. *)
Definition bom : string := String "239" (String "187" (String "191" "")).

Definition loads (s : string) : res pyval :=
  if String.prefix bom s then Raise JSONDecodeError
  else
    match scan_once (2 * String.length s + 2) (skip_ws s) with
    | Some (v, r) =>
        match skip_ws r with
        | EmptyString => Ok v
        | String _ _ => Raise JSONDecodeError
        end
    | None => Raise JSONDecodeError
    end.

End Json.

(** ** [str.format] with keyword arguments only

    The replacement-field machinery of the interpreter: literal text and
    doubled braces, the field name with its [.attr] and [[key]] accessors,
    the conversion after [!], the format specification after [:] and its
    one level of nested fields.  What an argument does when it is
    converted, formatted or accessed is its own business: an argument is
    seen through those four protocols. *)

Module Format.

Inductive pyobj : Type := PyObj {
  obj_format : string -> res string;
  obj_convert : ascii -> res (string -> res string);
  obj_getattr : string -> res pyobj;
  obj_getitem : string -> res pyobj
}.

Record field : Type := Field {
  field_name : string;
  conversion : option ascii;
  format_spec : string
}.

Definition is_brace (c : ascii) : bool := (c =? "{")%char || (c =? "}")%char.

Fixpoint scan_literal (s : string) : string * string :=
  match s with
  | String c r =>
      if is_brace c then ("", s)
      else let (l, r') := scan_literal r in (String c l, r')
  | EmptyString => ("", "")
  end.

(** The field name runs to the first [}], [:] or [!] outside brackets. *)
Fixpoint scan_field_name (in_bracket : bool) (s : string)
  : res (string * ascii * string) :=
  match s with
  | EmptyString => Raise ValueError
  | String c r =>
      if in_bracket then
        '(n, t, rest) <- scan_field_name (negb (c =? "]")%char) r ;;
        Ok (String c n, t, rest)
      else if (c =? "{")%char then Raise ValueError
      else if (c =? "}")%char || (c =? ":")%char || (c =? "!")%char
      then Ok ("", c, r)
      else
        '(n, t, rest) <- scan_field_name (c =? "[")%char r ;;
        Ok (String c n, t, rest)
  end%res.

(** The specification runs to the [}] that closes the field; [depth]
    counts the braces opened inside it. *)
Fixpoint scan_format_spec (depth : nat) (s : string) : res (string * string) :=
  match s with
  | EmptyString => Raise ValueError
  | String c r =>
      if (c =? "}")%char then
        match depth with
        | O => Ok ("", r)
        | S d => '(sp, rest) <- scan_format_spec d r ;; Ok (String c sp, rest)
        end
      else
        '(sp, rest) <- scan_format_spec (if (c =? "{")%char then S depth else depth) r ;;
        Ok (String c sp, rest)
  end%res.

Definition parse_field (s : string) : res (field * string) :=
  ('(name, t, r) <- scan_field_name false s ;;
   if (t =? "}")%char then Ok (Field name None "", r)
   else if (t =? ":")%char then
     '(sp, rest) <- scan_format_spec 0 r ;; Ok (Field name None sp, rest)
   else
     match r with
     | EmptyString => Raise ValueError
     | String conv r1 =>
         match r1 with
         | EmptyString => Raise ValueError
         | String c r2 =>
             if (c =? "}")%char then Ok (Field name (Some conv) "", r2)
             else if (c =? ":")%char then
               '(sp, rest) <- scan_format_spec 0 r2 ;;
               Ok (Field name (Some conv) sp, rest)
             else Raise ValueError
         end
     end)%res.

(** One step of the markup iterator on a non-empty text: the literal run,
    the replacement field after it if there is one, and the rest. *)
Definition MarkupIterator_next (s : string) : res (string * option field * string) :=
  let (lit, s1) := scan_literal s in
  match s1 with
  | EmptyString => Ok (lit, None, "")
  | String c r =>
      match r with
      | EmptyString => Raise ValueError
      | String c' r' =>
          if (c' =? c)%char then Ok (lit ++ String c "", None, r')
          else if (c =? "}")%char then Raise ValueError
          else ('(f, rest) <- parse_field r ;; Ok (lit, Some f, rest))%res
      end
  end.

(** The first part of a field name, before any accessor. *)
Fixpoint split_first (s : string) : string * string :=
  match s with
  | String c r =>
      if (c =? ".")%char || (c =? "[")%char then ("", s)
      else let (f, r') := split_first r in (String c f, r')
  | EmptyString => ("", "")
  end.

Fixpoint split_bracket (s : string) : option (string * string) :=
  match s with
  | String c r =>
      if (c =? "]")%char then Some ("", r)
      else match split_bracket r with
           | Some (k, r') => Some (String c k, r')
           | None => None
           end
  | EmptyString => None
  end.

(** An index is a run of decimal digits (here the ASCII ones). *)
Fixpoint all_digits (s : string) : bool :=
  match s with
  | String c r => Json.is_digit c && all_digits r
  | EmptyString => true
  end.

Definition PY_SSIZE_T_MAX : Z := 2 ^ 63 - 1.

(** A run of digits that does not fit an index is refused outright. *)
Definition too_many_digits (s : string) : bool :=
  negb (s =? "") && all_digits s && (PY_SSIZE_T_MAX <? Json.digits_value 0 s)%Z.

Fixpoint apply_accessors (fuel : nat) (obj : pyobj) (rest : string) : res pyobj :=
  match rest with
  | EmptyString => Ok obj
  | String c r =>
      match fuel with
      | O => Raise ValueError
      | S n =>
          if (c =? ".")%char then
            let (name, rest') := split_first r in
            if (name =? "") then Raise ValueError
            else (o <- obj_getattr obj name ;; apply_accessors n o rest')%res
          else if (c =? "[")%char then
            match split_bracket r with
            | None => Raise ValueError
            | Some (key, rest') =>
                if too_many_digits key || (key =? "") then Raise ValueError
                else (o <- obj_getitem obj key ;; apply_accessors n o rest')%res
            end
          else Raise ValueError
      end
  end.

Definition is_conversion (c : ascii) : bool :=
  (c =? "r")%char || (c =? "s")%char || (c =? "a")%char.

Fixpoint has_lbrace (s : string) : bool :=
  match s with
  | String c r => (c =? "{")%char || has_lbrace r
  | EmptyString => false
  end.

Section Build.

Variable kwargs : list (string * pyobj).

(** No positional argument is ever supplied here, so an empty or numeric
    first part finds nothing to index. *)
Definition get_value (first : string) : res pyobj :=
  if too_many_digits first then Raise ValueError
  else if all_digits first then Raise IndexError
  else match dict_get kwargs first with
       | Some o => Ok o
       | None => Raise (KeyError first)
       end.

Definition get_field_object (name : string) : res pyobj :=
  let (first, rest) := split_first name in
  (obj <- get_value first ;; apply_accessors (String.length rest) obj rest)%res.

Definition do_conversion (obj : pyobj) (conv : option ascii)
  : res (string -> res string) :=
  match conv with
  | None => Ok (obj_format obj)
  | Some c => if is_conversion c then obj_convert obj c else Raise ValueError
  end.

Section Level.

(** [expand] renders the nested fields of a format specification. *)
Variable expand : string -> res string.

Definition output_markup (f : field) : res string :=
  (obj <- get_field_object (field_name f) ;;
   render <- do_conversion obj (conversion f) ;;
   spec <- (if has_lbrace (format_spec f) then expand (format_spec f)
            else Ok (format_spec f)) ;;
   render spec)%res.

Fixpoint do_markup (fuel : nat) (s : string) : res string :=
  match s with
  | EmptyString => Ok ""
  | String _ _ =>
      match fuel with
      | O => Raise ValueError
      | S n =>
          ('(lit, fld, rest) <- MarkupIterator_next s ;;
           v <- match fld with
                | Some f => output_markup f
                | None => Ok ""
                end ;;
           out <- do_markup n rest ;;
           Ok (lit ++ v ++ out))%res
      end
  end.

End Level.

Fixpoint build_string (recursion_depth : nat) (s : string) : res string :=
  match recursion_depth with
  | O => Raise ValueError
  | S d => do_markup (build_string d) (String.length s) s
  end.

Definition str_format (template : string) : res string :=
  build_string 2 template.

End Build.

End Format.

(** ** The collaborators of the generators *)

(** Modelled from the spec: [ChatMessage] of [giskard.llm.client.base], a
    role tag and a text content. *)
Record ChatMessage : Type := { role : string; content : string }.

(** One call of [llm_client.complete], by its keyword arguments. *)
Record CompletionCall : Type := {
  messages : list ChatMessage;
  temperature : spec_float;
  caller_id : string;
  seed : Z;
  format : string
}.

(** Modelled from the spec: [LLMClient] of [giskard.llm.client], the
    capability [complete(messages, temperature, seed, format, caller_id)].
    The client answers a call, or raises; what it answers may depend on the
    calls it has served before. *)
Record LLMClient : Type := {
  complete : list CompletionCall -> CompletionCall -> res ChatMessage
}.

Module BaseModel.
(** Modelled from the spec: the model under test, read-only metadata that
    exposes a name.  [as_object] is the same model as [str.format] sees
    it. *)
Record t : Type := { name : string; as_object : Format.pyobj }.
End BaseModel.

Definition Dict : Type := list (string * string).

(** What the interpreter and the libraries provide: the data frame of
    pandas, the [str] and [int] objects as [str.format] sees them, and the
    process-wide default client. *)
Class Runtime : Type := {
  DataFrame : Type;
  pd_DataFrame : pyval -> res DataFrame;
  str_object : string -> Format.pyobj;
  int_object : Z -> Format.pyobj;
  get_default_client : LLMClient
}.

Module Dataset.
(** Modelled from the spec: [Dataset] of [giskard.datasets.base], a
    constructor taking the rows, a name, the column types and a validation
    flag.  A dataset is known by the arguments its constructor received. *)
Record t {RT : Runtime} : Type := {
  df : DataFrame;
  name : string;
  validation : bool;
  column_types : option Dict
}.
End Dataset.

(** ** Methods: an instance, the calls made so far, and a result *)

Section Method.

Context {Self : Type}.

Record World : Type := { this : Self; calls : list CompletionCall }.

Definition method (A : Type) : Type := World -> res A * World.

Definition ret {A} (a : A) : method A := fun w => (Ok a, w).

Definition mbind {A B} (m : method A) (k : A -> method B) : method B :=
  fun w =>
    match m w with
    | (Ok a, w') => k a w'
    | (Raise e, w') => (Raise e, w')
    end.

Definition lift {A} (r : res A) : method A := fun w => (r, w).

Definition self : method Self := fun w => (Ok (this w), w).

Definition llm_client_complete (client : LLMClient) (call : CompletionCall)
  : method ChatMessage :=
  fun w => (complete client (calls w) call,
            {| this := this w; calls := calls w ++ [call] |}).

End Method.

Arguments World : clear implicits.

Declare Scope method_scope.
Delimit Scope method_scope with method.
Notation "x <- m ;; k" := (mbind m (fun x => k))
  (at level 61, m at next level, right associativity) : method_scope.

(** ** [giskard/llm/generators/base.py] *)

Definition DEFAULT_GENERATE_INPUTS_PROMPT : string :=
  "You are auditing an AI model. Your task is to generate typical but varied inputs for this model.

Your will generate inputs for the following model: {model_name} - {model_description}.
Model Features: {feature_names}

Each generated input must be an object with values for each of the model features, aimed at simulating typical usage of the model, or typical inputs that the model is supposed to handle.
Take the model description into account when generating the inputs. You should not generate repeated inputs or variations of the same input, instead try to generate inputs that varied for use cases of the model and cover all situations that could be encoutered during typical usage of the model.

Think step by step and then call the `generate_inputs` function with the generated inputs. You must generate {num_samples} inputs.
".


(** What a class fixes for its instances. *)
Record GeneratorClass : Type := {
  __name__ : string;
  _default_temperature : spec_float;
  _output_key : option string
}.

(** 0.5 as a binary64 value. *)
Definition float_0_5 : spec_float := S754_finite false 4503599627370496 (-53).

(** Truth value of [self._output_key]: [None] and the empty string are false. *)
Definition truthy_key (k : option string) : option string :=
  match k with
  | Some EmptyString => None
  | _ => k
  end.

Module _BaseLLMGenerator.

(** The attributes [__init__] sets. *)
Record t : Type := {
  __class__ : GeneratorClass;
  languages : list string;
  llm_temperature : spec_float;
  llm_client : LLMClient;
  llm_seed : Z
}.

Definition class : GeneratorClass :=
  {| __name__ := "_BaseLLMGenerator";
     _default_temperature := float_0_5;
     _output_key := Some "inputs" |}.

(** The default of the [llm_seed] parameter. *)
Definition llm_seed_default : Z := 1729.

(** An argument left out is [None]; for [llm_seed] that means its
    default value. *)
Definition __init__ {RT : Runtime} (cls : GeneratorClass)
  (languages : option (list string)) (llm_temperature : option spec_float)
  (llm_client : option LLMClient) (llm_seed : option Z) : t :=
  {| __class__ := cls;
     languages := match languages with
                  | Some (l :: ls) => l :: ls
                  | _ => ["en"]
                  end;
     llm_temperature := match llm_temperature with
                        | Some temp => temp
                        | None => _default_temperature cls
                        end;
     llm_client := match llm_client with
                   | Some c => c
                   | None => get_default_client
                   end;
     llm_seed := match llm_seed with
                 | Some n => n
                 | None => llm_seed_default
                 end |}.

Definition _parse_output (self : t) (raw_output : ChatMessage) : res pyval :=
  match
    (data <- Json.loads (content raw_output) ;;
     match truthy_key (_output_key (__class__ self)) with
     | Some key => getitem data key
     | None => Ok data
     end)%res
  with
  | Raise JSONDecodeError =>
      Raise (LLMGenerationError "Could not parse generated data" JSONDecodeError)
  | Raise (KeyError k) =>
      Raise (LLMGenerationError "Could not parse generated data" (KeyError k))
  | r => r
  end.

Definition _make_dataset_name (self : t) (model : BaseModel.t) : string :=
  "Synthetic Test Dataset for " ++ BaseModel.name model.

(** A generator class extends the base attributes and says how it
    formats its messages. *)
Class Generator (Self : Type) : Type := {
  base : Self -> t;
  _format_messages :
    Self -> BaseModel.t -> Z -> option Dict -> res (list ChatMessage)
}.

Definition generate_dataset {RT : Runtime} {Self : Type} {G : Generator Self}
  (model : BaseModel.t) (num_samples : Z) (column_types : option Dict)
  : @method Self Dataset.t :=
  (me <- self ;;
   messages <- lift (_format_messages me model num_samples column_types) ;;
   out <- llm_client_complete (llm_client (base me))
            {| messages := messages;
               temperature := llm_temperature (base me);
               caller_id := __name__ (__class__ (base me));
               seed := llm_seed (base me);
               format := "json" |} ;;
   generated <- lift (_parse_output (base me) out) ;;
   frame <- lift (pd_DataFrame generated) ;;
   ret {| Dataset.df := frame;
          Dataset.name := _make_dataset_name (base me) model;
          Dataset.validation := false;
          Dataset.column_types := column_types |})%method.

End _BaseLLMGenerator.

Module LLMBasedDataGenerator.

Import _BaseLLMGenerator.

Record t : Type := {
  super : _BaseLLMGenerator.t;
  prompt : string;
  prefix_messages : list ChatMessage
}.

Definition class : GeneratorClass :=
  {| __name__ := "LLMBasedDataGenerator";
     _default_temperature := _default_temperature _BaseLLMGenerator.class;
     _output_key := _output_key _BaseLLMGenerator.class |}.

(** [languages] is a parameter of this class and is not handed on; the
    keyword arguments of the base class are.  The prefix messages, when
    given, are a list. *)
Definition __init__ {RT : Runtime} (cls : GeneratorClass)
  (prompt : string) (prefix_messages : option (list ChatMessage))
  (languages : option (list string))
  (llm_temperature : option spec_float) (llm_client : option LLMClient)
  (llm_seed : option Z) : t :=
  let s := _BaseLLMGenerator.__init__ cls None llm_temperature llm_client llm_seed in
  {| super := {| __class__ := __class__ s;
                 languages := match languages with
                              | Some (l :: ls) => l :: ls
                              | _ => ["en"]
                              end;
                 llm_temperature := _BaseLLMGenerator.llm_temperature s;
                 llm_client := _BaseLLMGenerator.llm_client s;
                 llm_seed := _BaseLLMGenerator.llm_seed s |};
     prompt := prompt;
     prefix_messages := match prefix_messages with
                        | Some (m :: ms) => m :: ms
                        | _ => []
                        end |}.

Definition format_kwargs {RT : Runtime} (self : t) (model : BaseModel.t)
  (num_samples : Z) : list (string * Format.pyobj) :=
  [("model", BaseModel.as_object model);
   ("num_samples", int_object num_samples);
   ("languages", str_object (join ", " (languages (super self))))].

Definition _format_messages {RT : Runtime} (self : t) (model : BaseModel.t)
  (num_samples : Z) (column_types : option Dict) : res (list ChatMessage) :=
  (prompt <- Format.str_format (format_kwargs self model num_samples) (prompt self) ;;
   Ok (prefix_messages self ++ [{| role := "user"; content := prompt |}])%list)%res.

#[global] Instance generator {RT : Runtime} : Generator t :=
  {| _BaseLLMGenerator.base := super;
     _BaseLLMGenerator._format_messages := _format_messages |}.

End LLMBasedDataGenerator.

(** ** A stand-in runtime for the worked examples

    Enough of the interpreter to run the generators on concrete inputs: a
    [str] or [int] argument renders as its text, a data frame is stood for
    by the records it was built from, and the client is a stub with a
    canned answer. *)

Module Example.

Definition text_object (s : string) : Format.pyobj :=
  Format.PyObj (fun _ => Ok s) (fun _ => Ok (fun _ => Ok s))
    (fun a => Raise (AttributeError a)) (fun _ => Raise TypeError).

Definition stub_client (answer : string) : LLMClient :=
  {| complete := fun _ _ => Ok {| role := "assistant"; content := answer |} |}.

#[local] Instance runtime : Runtime :=
  {| DataFrame := list pyval;
     pd_DataFrame := fun v => match v with
                              | PList rows => Ok rows
                              | _ => Raise ValueError
                              end;
     str_object := text_object;
     int_object := fun n => text_object (NilZero.string_of_int (Z.to_int n));
     get_default_client := stub_client (json_text "{'inputs': []}") |}.

Definition loan_model : BaseModel.t :=
  {| BaseModel.name := "Loan Approval";
     BaseModel.as_object :=
       Format.PyObj (fun _ => Ok "Loan Approval model")
         (fun _ => Ok (fun _ => Ok "Loan Approval model"))
         (fun a => if a =? "name" then Ok (text_object "Loan Approval")
                   else if a =? "description" then Ok (text_object "Decides on loans")
                   else Raise (AttributeError a))
         (fun _ => Raise TypeError) |}.

Definition loan_answer : string :=
  json_text "{'inputs': [{'income': 50000, 'age': 30}, {'income': 72000, 'age': 45}, {'income': 15000, 'age': 22}]}".

Definition loan_records : list pyval :=
  [PDict [("income", PInt 50000); ("age", PInt 30)];
   PDict [("income", PInt 72000); ("age", PInt 45)];
   PDict [("income", PInt 15000); ("age", PInt 22)]].

Definition example_kwargs : list (string * Format.pyobj) :=
  [("model", BaseModel.as_object loan_model);
   ("num_samples", text_object "3");
   ("languages", text_object "en, fr")].

(** A generator over a stub client that answers [answer]. *)
Definition generator_for (prompt : string) (languages : list string)
  (answer : string) : LLMBasedDataGenerator.t :=
  LLMBasedDataGenerator.__init__ LLMBasedDataGenerator.class prompt None
    (Some languages) None (Some (stub_client answer)) None.

Definition fresh (g : LLMBasedDataGenerator.t) : World LLMBasedDataGenerator.t :=
  {| this := g; calls := [] |}.

End Example.

(** ** Vocabulary of the statements *)

(** The completion call a generator with base attributes [b] issues for
    [messages]. *)
Definition issued_call (b : _BaseLLMGenerator.t) (msgs : list ChatMessage)
  : CompletionCall :=
  {| messages := msgs;
     temperature := _BaseLLMGenerator.llm_temperature b;
     caller_id := __name__ (_BaseLLMGenerator.__class__ b);
     seed := _BaseLLMGenerator.llm_seed b;
     format := "json" |}.

Definition user_message (instruction : string) : ChatMessage :=
  {| role := "user"; content := instruction |}.

Definition is_generation_failure (e : exn) : bool :=
  match e with
  | LLMGenerationError _ _ => true
  | _ => false
  end.

Definition raises {A : Type} (r : res A) : Prop := exists e, r = Raise e.

(** The replacement fields of a text, in order, as far as the markup
    iterator gets. *)
Fixpoint fields_of (fuel : nat) (s : string) : list Format.field :=
  match s with
  | EmptyString => []
  | String _ _ =>
      match fuel with
      | O => []
      | S n =>
          match Format.MarkupIterator_next s with
          | Ok (_, fld, rest) =>
              (match fld with Some f => [f] | None => [] end) ++ fields_of n rest
          | Raise _ => []
          end
      end
  end%list.

Definition template_fields (s : string) : list Format.field :=
  fields_of (String.length s) s.

(** The argument a field starts from: its name up to the first accessor. *)
Definition first_name (f : Format.field) : string :=
  fst (Format.split_first (Format.field_name f)).

Definition nested_fields (f : Format.field) : list Format.field :=
  if Format.has_lbrace (Format.format_spec f)
  then template_fields (Format.format_spec f)
  else [].

(** The argument names a template refers to: those of its fields, and of
    the fields nested in their format specifications. *)
Definition referenced_names (template : string) : list string :=
  flat_map (fun f => first_name f :: map first_name (nested_fields f))
    (template_fields template).

Fixpoint has_brace (s : string) : bool :=
  match s with
  | String c r => Format.is_brace c || has_brace r
  | EmptyString => false
  end.





(** ** Well-formed JSON text

    The grammar of JSON, read off as a relation between a text and the
    Python value it stands for: arbitrary whitespace around the structural
    characters, strings with their escapes, numbers, the three literals
    and the three constants Python adds, arrays and objects.  An object
    stands for the [dict] its members build, in order. *)

Module JsonText.

Fixpoint all_ws (w : string) : bool :=
  match w with
  | String c r => Json.is_ws c && all_ws r
  | EmptyString => true
  end.

Definition backslash : ascii := "\"%char.

Definition u_escape (h1 h2 h3 h4 : ascii) (t : string) : string :=
  String backslash (String "u" (String h1 (String h2 (String h3 (String h4 t))))).

(** The text begins with the escape of a low surrogate. *)
Definition low_escape_ahead (t : string) : Prop :=
  exists k1 k2 k3 k4 r lo,
    t = u_escape k1 k2 k3 k4 r /\
    Json.hex4 k1 k2 k3 k4 = Some lo /\ Json.is_low_surrogate lo = true.

(** [chars t s]: the text [t] between two quotes stands for the string [s]. *)
Inductive chars : string -> string -> Prop :=
| chars_end : chars "" ""
| chars_plain c t s :
    c <> dquote -> c <> backslash -> Json.is_control c = false ->
    chars t s -> chars (String c t) (String c s)
| chars_escape e ch t s :
    Json.simple_escape e = Some ch ->
    chars t s -> chars (String backslash (String e t)) (String ch s)
| chars_unicode h1 h2 h3 h4 cp t s :
    Json.hex4 h1 h2 h3 h4 = Some cp -> Json.is_high_surrogate cp = false ->
    chars t s -> chars (u_escape h1 h2 h3 h4 t) (Json.utf8 cp ++ s)
| chars_pair h1 h2 h3 h4 k1 k2 k3 k4 hi lo t s :
    Json.hex4 h1 h2 h3 h4 = Some hi -> Json.is_high_surrogate hi = true ->
    Json.hex4 k1 k2 k3 k4 = Some lo -> Json.is_low_surrogate lo = true ->
    chars t s ->
    chars (u_escape h1 h2 h3 h4 (u_escape k1 k2 k3 k4 t))
          (Json.utf8 (Json.join_surrogates hi lo) ++ s)
| chars_lone h1 h2 h3 h4 hi t s :
    Json.hex4 h1 h2 h3 h4 = Some hi -> Json.is_high_surrogate hi = true ->
    ~ low_escape_ahead t ->
    chars t s -> chars (u_escape h1 h2 h3 h4 t) (Json.utf8 hi ++ s).

Fixpoint all_digits (d : string) : bool :=
  match d with
  | String c r => Json.is_digit c && all_digits r
  | EmptyString => true
  end.

(** The integer part: a single zero, or digits that do not start with zero. *)
Definition int_part (ip : string) : Prop :=
  ip = "0" \/
  exists c d, ip = String c d /\ Json.is_digit c = true /\ c <> "0"%char /\
              all_digits d = true.

(** The exponent part: its text, and sign and digits. *)
Inductive exp_part : string -> option (bool * string) -> Prop :=
| exp_none : exp_part "" None
| exp_some e sign neg d :
    e = "e"%char \/ e = "E"%char ->
    (sign = "" /\ neg = false) \/ (sign = "+" /\ neg = false) \/
      (sign = "-" /\ neg = true) ->
    d <> "" -> all_digits d = true ->
    exp_part (String e (sign ++ d)) (Some (neg, d)).

Inductive number : string -> pyval -> Prop :=
| number_intro (neg : bool) ip frac et exp :
    int_part ip -> all_digits frac = true -> exp_part et exp ->
    number ((if neg then "-" else "") ++ ip
              ++ (if frac =? "" then "" else String "." frac) ++ et)
           (Json.number_value neg ip frac exp).

Inductive value : string -> pyval -> Prop :=
| value_null : value "null" PNone
| value_true : value "true" (PBool true)
| value_false : value "false" (PBool false)
| value_nan : value "NaN" (PFloat S754_nan)
| value_infinity : value "Infinity" (PFloat (S754_infinity false))
| value_neg_infinity : value "-Infinity" (PFloat (S754_infinity true))
| value_number t v : number t v -> value t v
| value_string t s :
    chars t s -> value (String dquote (t ++ String dquote "")) (PStr s)
| value_empty_array w :
    all_ws w = true -> value (String "[" (w ++ "]")) (PList [])
| value_array t vs :
    elements t vs -> value (String "[" (t ++ "]")) (PList vs)
| value_empty_object w :
    all_ws w = true -> value (String "{" (w ++ "}")) (PDict [])
| value_object t ps :
    members t ps -> value (String "{" (t ++ "}")) (PDict (dict_of_pairs ps))

with elements : string -> list pyval -> Prop :=
| elements_last w1 t v w2 :
    all_ws w1 = true -> value t v -> all_ws w2 = true ->
    elements (w1 ++ t ++ w2) [v]
| elements_more w1 t v w2 t' vs :
    all_ws w1 = true -> value t v -> all_ws w2 = true -> elements t' vs ->
    elements (w1 ++ t ++ w2 ++ String "," t') (v :: vs)

with members : string -> list (string * pyval) -> Prop :=
| members_last w1 kt k w2 w3 t v w4 :
    all_ws w1 = true -> chars kt k -> all_ws w2 = true -> all_ws w3 = true ->
    value t v -> all_ws w4 = true ->
    members (w1 ++ String dquote (kt ++ String dquote (w2 ++ String ":" (w3 ++ t ++ w4))))
            [(k, v)]
| members_more w1 kt k w2 w3 t v w4 t' ps :
    all_ws w1 = true -> chars kt k -> all_ws w2 = true -> all_ws w3 = true ->
    value t v -> all_ws w4 = true -> members t' ps ->
    members (w1 ++ String dquote (kt ++ String dquote (w2 ++ String ":"
               (w3 ++ t ++ w4 ++ String "," t'))))
            ((k, v) :: ps).

Scheme value_mut := Minimality for value Sort Prop
  with elements_mut := Minimality for elements Sort Prop
  with members_mut := Minimality for members Sort Prop.

Combined Scheme grammar_ind from value_mut, elements_mut, members_mut.

(** A document: one value, with whitespace around it. *)
Definition document (text : string) (v : pyval) : Prop :=
  exists w1 t w2,
    all_ws w1 = true /\ value t v /\ all_ws w2 = true /\ text = w1 ++ t ++ w2.

End JsonText.


(** What a scanner leaves over is a proper tail of what it was given. *)
Definition proper_tail (rest s : string) : Prop :=
  exists c pre, s = String c pre ++ rest.

(** What may follow a value: the end of the text, whitespace, or one of
    [,], []] and [}]. *)
Definition is_delimiter (c : ascii) : bool :=
  Json.is_ws c || (c =? ",")%char || (c =? "]")%char || (c =? "}")%char.

Definition delimited (r : string) : Prop :=
  match r with
  | String c _ => is_delimiter c = true
  | EmptyString => True
  end.

Definition head_is (p : ascii -> bool) (r : string) : bool :=
  match r with
  | String c _ => p c
  | EmptyString => false
  end.

(** What [scanstring] does after the escape of a high surrogate [hi]. *)
Definition after_high (hi : N) (r2 : string) : option (string * string) :=
  match r2 with
  | String b (String u r3) =>
      if (b =? "\")%char && (u =? "u")%char then
        match r3 with
        | String k1 (String k2 (String k3 (String k4 r4))) =>
            match Json.hex4 k1 k2 k3 k4 with
            | None => None
            | Some lo =>
                if Json.is_low_surrogate lo
                then Json.prepend (Json.utf8 (Json.join_surrogates hi lo))
                       (Json.scanstring r4)
                else Json.prepend (Json.utf8 hi) (Json.scanstring r2)
            end
        | _ => None
        end
      else Json.prepend (Json.utf8 hi) (Json.scanstring r2)
  | _ => Json.prepend (Json.utf8 hi) (Json.scanstring r2)
  end.

(** Every value begins with a character that is neither whitespace nor a
    closing bracket, nor the first byte of a byte-order mark. *)
Definition value_start (c : ascii) : Prop :=
  Json.is_ws c = false /\ (c =? "]")%char = false /\ (c =? "}")%char = false /\
  (c =? "239")%char = false.

(** Templates and texts of the worked examples. *)
Definition loan_prompt : string :=
  "Generate {num_samples} inputs for {model.name}: {model.description}.".

Definition plain_prompt : string := "Generate {num_samples} inputs for {model.name}.".


(** ** Vocabulary of the further properties *)


(** The characters a JSON value can begin with: the quote of a string, the
    opening bracket of an object or of an array, the sign or a digit of a
    number, and the first letters of [null], [true], [false], [NaN] and
    [Infinity]. *)
Definition starts_value (c : ascii) : bool :=
  (c =? dquote)%char || (c =? "{")%char || (c =? "[")%char || (c =? "-")%char ||
  Json.is_digit c || (c =? "n")%char || (c =? "t")%char || (c =? "f")%char ||
  (c =? "N")%char || (c =? "I")%char.

Definition not_ws (c : ascii) : bool := negb (Json.is_ws c).

(** The last character of a text satisfies [p]. *)
Fixpoint last_is (p : ascii -> bool) (s : string) : bool :=
  match s with
  | EmptyString => false
  | String c EmptyString => p c
  | String _ r => last_is p r
  end.


(** Templates that use no more of the field syntax than a plain name:
    runs of literal text, braces (each written twice in the template), and
    replacement fields [{name}] without accessor, conversion or format
    specification. *)
Inductive piece : Type :=
| Text (s : string)
| Brace (c : ascii)
| Name (n : string).

Definition piece_text (p : piece) : string :=
  match p with
  | Text s => s
  | Brace c => String c (String c "")
  | Name n => String "{" (n ++ "}")
  end.

Fixpoint template_of (ps : list piece) : string :=
  match ps with
  | [] => ""
  | p :: ps' => piece_text p ++ template_of ps'
  end.

(** An ASCII character with no meaning inside a field name. *)
Definition plain_char (c : ascii) : bool :=
  negb ((c =? "{")%char || (c =? "}")%char || (c =? ":")%char || (c =? "!")%char ||
        (c =? ".")%char || (c =? "[")%char) &&
  (N_of_ascii c <? 128)%N.

Fixpoint plain_chars (n : string) : bool :=
  match n with
  | String c r => plain_char c && plain_chars r
  | EmptyString => true
  end.

(** A name that is looked up among the keyword arguments as it stands:
    not empty, not a number, and made of plain ASCII characters. *)
Definition plain_name (n : string) : bool :=
  negb (n =? "") && negb (Format.all_digits n) && plain_chars n.

Definition plain_piece (p : piece) : bool :=
  match p with
  | Text s => negb (has_brace s)
  | Brace c => Format.is_brace c
  | Name n => plain_name n
  end.

(** What a plain template is to render as: the text as it is, a brace
    once, and for a name the argument of that name formatted with the
    empty specification, or a [KeyError] when there is none. *)
Definition render_piece (kwargs : list (string * Format.pyobj)) (p : piece)
  : res string :=
  match p with
  | Text s => Ok s
  | Brace c => Ok (String c "")
  | Name n =>
      match dict_get kwargs n with
      | Some o => Format.obj_format o ""
      | None => Raise (KeyError n)
      end
  end.

Fixpoint render (kwargs : list (string * Format.pyobj)) (ps : list piece)
  : res string :=
  match ps with
  | [] => Ok ""
  | p :: ps' =>
      (a <- render_piece kwargs p ;;
       b <- render kwargs ps' ;;
       Ok (a ++ b))%res
  end.

(** The text has a closing brace somewhere. *)
Fixpoint has_rbrace (s : string) : bool :=
  match s with
  | String c r => (c =? "}")%char || has_rbrace r
  | EmptyString => false
  end.

(** A client whose every call fails with [e], and a generator class that
    reads the whole completion as its output. *)
Definition failing_client (e : exn) : LLMClient :=
  {| complete := fun _ _ => Raise e |}.


(** * Properties *)

(** ** The runtime model at work

    What [json.loads] and [str.format] give on some telling inputs. *)

Section RuntimeExamples.

Import Example.

Example loads_duplicate_keys :
  Json.loads (json_text "{'a': 1, 'b': 2, 'a': 3}") =
  Ok (PDict [("a", PInt 3); ("b", PInt 2)]).
Proof. vm_compute. reflexivity. Qed.

Example loads_trailing_comma : Json.loads "[1,]" = Raise JSONDecodeError.
Proof. vm_compute. reflexivity. Qed.

Example loads_leading_zero : Json.loads "01" = Raise JSONDecodeError.
Proof. vm_compute. reflexivity. Qed.

Example loads_minus_zero : Json.loads "-0" = Ok (PInt 0).
Proof. vm_compute. reflexivity. Qed.

Example loads_one_tenth :
  Json.loads "0.1" = Ok (PFloat (S754_finite false 7205759403792794 (-56))).
Proof. vm_compute. reflexivity. Qed.

Example loads_overflow : Json.loads "1e400" = Ok (PFloat (S754_infinity false)).
Proof. vm_compute. reflexivity. Qed.

Example loads_surrogate_pair :
  Json.loads (json_text "'\ud83d\ude00'") =
  Ok (PStr (String "240" (String "159" (String "152" (String "128" ""))))).
Proof. vm_compute. reflexivity. Qed.

Example loads_control_character :
  Json.loads (json_text ("'a" ++ String "009" "b'")) = Raise JSONDecodeError.
Proof. vm_compute. reflexivity. Qed.

Example format_fields :
  Format.str_format example_kwargs "{num_samples} for {model.name} in {languages}" =
  Ok "3 for Loan Approval in en, fr".
Proof. vm_compute. reflexivity. Qed.

Example format_doubled_braces :
  Format.str_format example_kwargs "a}}b{{c" = Ok "a}b{c".
Proof. vm_compute. reflexivity. Qed.

Example format_missing_name :
  Format.str_format example_kwargs "{model_name}" = Raise (KeyError "model_name").
Proof. vm_compute. reflexivity. Qed.

Example format_positional :
  Format.str_format example_kwargs "{} and {0}" = Raise IndexError.
Proof. vm_compute. reflexivity. Qed.

Example format_missing_attribute :
  Format.str_format example_kwargs "{model.nam}" = Raise (AttributeError "nam").
Proof. vm_compute. reflexivity. Qed.

Example format_single_brace :
  Format.str_format example_kwargs "{num_samples}}" = Raise ValueError.
Proof. vm_compute. reflexivity. Qed.

Example format_nested_too_deep :
  Format.str_format example_kwargs "{languages:{num_samples:{model}}}" =
  Raise ValueError.
Proof. vm_compute. reflexivity. Qed.

End RuntimeExamples.

(** ** Facts about strings *)

Section StringFacts.

Lemma append_nil_r s : s ++ "" = s.
Proof. induction s; cbn; congruence. Qed.

Lemma append_assoc a b c : (a ++ b) ++ c = a ++ (b ++ c).
Proof. induction a; cbn; congruence. Qed.

Lemma length_append a b : String.length (a ++ b) = String.length a + String.length b.
Proof. induction a; cbn; congruence. Qed.




End StringFacts.

(** Reassociates appends, and settles goals about lengths. *)
Ltac norm_app := repeat (progress cbn [append] || rewrite append_assoc).

Ltac lengths :=
  repeat (rewrite ?length_append in *; cbn [String.length] in * ); lia.

(** ** [json.loads] accepts every well-formed text *)

Section NumberFacts.

Import Json JsonText.

Lemma skip_ws_all_ws w s : all_ws w = true -> skip_ws (w ++ s) = skip_ws s.
Proof.
  induction w as [|c w IH]; cbn; [reflexivity|].
  intros [Hc Hw]%andb_true_iff. rewrite Hc. auto.
Qed.

Lemma skip_ws_start c s : is_ws c = false -> skip_ws (String c s) = String c s.
Proof. cbn. now intros ->. Qed.

Lemma digit_neq c x : is_digit c = true -> is_digit x = false -> (c =? x)%char = false.
Proof. intros Hc Hx. destruct (Ascii.eqb_spec c x); [congruence|reflexivity]. Qed.

Lemma delimiter_neq c x : is_delimiter c = true -> is_delimiter x = false ->
  (c =? x)%char = false.
Proof. intros Hc Hx. destruct (Ascii.eqb_spec c x); [congruence|reflexivity]. Qed.

Lemma delimiter_not_digit c : is_delimiter c = true -> is_digit c = false.
Proof.
  unfold is_delimiter, is_ws. intros H.
  repeat (apply orb_true_iff in H; destruct H as [H|H]);
    apply Ascii.eqb_eq in H; subst; reflexivity.
Qed.

Lemma span_digits_app d r :
  all_digits d = true -> head_is is_digit r = false ->
  span_digits (d ++ r) = (d, r).
Proof.
  intros Hd Hr. induction d as [|c d IH]; cbn [append span_digits].
  - destruct r as [|c r]; [reflexivity|]. cbn [head_is] in Hr.
    cbn [span_digits]. now rewrite Hr.
  - cbn [all_digits] in Hd. apply andb_true_iff in Hd. destruct Hd as [Hc Hd].
    now rewrite Hc, IH.
Qed.

Lemma delimited_head_digit r : delimited r -> head_is is_digit r = false.
Proof. destruct r; cbn; auto using delimiter_not_digit. Qed.

Lemma match_frac_none r :
  head_is (fun c => (c =? ".")%char) r = false -> match_frac r = ("", r).
Proof. destruct r; cbn; [reflexivity|]. now intros ->. Qed.

Lemma match_frac_some frac r :
  frac <> "" -> all_digits frac = true -> head_is is_digit r = false ->
  match_frac (String "." (frac ++ r)) = (frac, r).
Proof.
  intros Hne Hd Hr. cbn. rewrite (span_digits_app _ _ Hd Hr).
  destruct frac; [now destruct Hne|reflexivity].
Qed.

Lemma match_exp_none r :
  head_is (fun c => (c =? "e")%char || (c =? "E")%char) r = false ->
  match_exp r = (None, r).
Proof. destruct r; cbn; [reflexivity|]. now intros ->. Qed.

Lemma match_exp_some et exp r :
  exp_part et exp -> et <> "" -> head_is is_digit r = false ->
  match_exp (et ++ r) = (exp, r).
Proof.
  intros H Hne Hr. destruct H as [|e sign neg d He Hsign Hd Hdig]; [now destruct Hne|].
  assert (Hhead : exists c d', d = String c d' /\ is_digit c = true).
  { destruct d as [|c d']; [now destruct Hd|]. cbn in Hdig.
    apply andb_true_iff in Hdig. destruct Hdig. eauto. }
  destruct Hhead as (c & d' & -> & Hc).
  assert (Hspan := span_digits_app _ _ Hdig Hr).
  unfold match_exp. cbn [append] in Hspan |- *.
  replace ((e =? "e")%char || (e =? "E")%char) with true
    by (destruct He; subst; reflexivity).
  destruct Hsign as [[-> ->]|[[-> ->]|[-> ->]]]; cbn [append].
  - rewrite (digit_neq c "-" Hc eq_refl), (digit_neq c "+" Hc eq_refl).
    now rewrite Hspan.
  - change (("+" =? "-")%char) with false. change (("+" =? "+")%char) with true.
    cbv iota. now rewrite Hspan.
  - change (("-" =? "-")%char) with true. cbv iota. now rewrite Hspan.
Qed.

Lemma int_part_head ip :
  int_part ip -> exists c d, ip = String c d /\ is_digit c = true /\ all_digits d = true.
Proof.
  intros [->|(c & d & -> & Hc & _ & Hd)]; [exists "0"%char, ""; auto|eauto].
Qed.

Lemma match_integer_app ip r :
  int_part ip -> head_is is_digit r = false ->
  match_integer (ip ++ r) = Some (ip, r).
Proof.
  intros [->|(c & d & -> & Hc & Hz & Hd)] Hr; [reflexivity|].
  cbn. apply Ascii.eqb_neq in Hz. rewrite Hz, Hc.
  now rewrite (span_digits_app _ _ Hd Hr).
Qed.

Lemma exp_part_head et exp r :
  exp_part et exp -> head_is is_digit r = false ->
  head_is (fun c => (c =? ".")%char) r = false ->
  head_is is_digit (et ++ r) = false /\
  head_is (fun c => (c =? ".")%char) (et ++ r) = false.
Proof.
  intros [|e sign neg d He _ _ _] Hr Hdot; [auto|].
  destruct He; subst; auto.
Qed.

Lemma match_number_minus s :
  match_number (String "-" s) =
  match match_integer s with
  | None => None
  | Some (ip, r1) =>
      let (frac, r2) := match_frac r1 in
      let (exp, r3) := match_exp r2 in
      Some (number_value true ip frac exp, r3)
  end.
Proof. reflexivity. Qed.

Lemma match_number_plain c s :
  (c =? "-")%char = false ->
  match_number (String c s) =
  match match_integer (String c s) with
  | None => None
  | Some (ip, r1) =>
      let (frac, r2) := match_frac r1 in
      let (exp, r3) := match_exp r2 in
      Some (number_value false ip frac exp, r3)
  end.
Proof. unfold match_number. now intros ->. Qed.

(** The scanner reads a number off the head of a text as the grammar
    reads it. *)
Lemma match_number_complete t v r :
  number t v -> delimited r -> match_number (t ++ r) = Some (v, r).
Proof.
  intros [neg ip frac et exp Hip Hfrac Hexp] Hr.
  assert (Hrd := delimited_head_digit r Hr).
  assert (Hr_dot : head_is (fun c => (c =? ".")%char) r = false).
  { destruct r as [|c r]; [reflexivity|]. cbn in *.
    now apply delimiter_neq. }
  assert (Hr_e : head_is (fun c => (c =? "e")%char || (c =? "E")%char) r = false).
  { destruct r as [|c r]; [reflexivity|]. cbn in *.
    now rewrite !delimiter_neq. }
  destruct (exp_part_head et exp r Hexp Hrd Hr_dot) as [Het_digit Het_dot].
  rewrite !append_assoc.
  set (rest := (if frac =? "" then "" else String "." frac) ++ et ++ r).
  assert (Hrest : head_is is_digit rest = false).
  { unfold rest. destruct (frac =? ""); [exact Het_digit|reflexivity]. }
  assert (Hfe : match_frac rest = (frac, et ++ r)).
  { unfold rest. destruct (String.eqb_spec frac "") as [->|Hne].
    - now apply match_frac_none.
    - cbn [append]. now apply match_frac_some. }
  assert (Hee : match_exp (et ++ r) = (exp, r)).
  { destruct (string_dec et "") as [->|Hne].
    - inversion Hexp; subst. now apply match_exp_none.
    - now apply match_exp_some. }
  assert (Hint := match_integer_app ip rest Hip Hrest).
  destruct neg; cbn [append].
  - now rewrite match_number_minus, Hint, Hfe, Hee.
  - destruct (int_part_head ip Hip) as (c & d & Hipeq & Hc & _).
    revert Hint. rewrite Hipeq. cbn [append]. intros Hint.
    now rewrite (match_number_plain _ _ (digit_neq c "-" Hc eq_refl)), Hint, Hfe, Hee.
Qed.

End NumberFacts.

(** Decides the comparisons of a digit [c] with other characters. *)
Ltac digit_tests c Hc :=
  repeat match goal with
         | |- context [(c =? ?x)%char] => rewrite (digit_neq c x Hc eq_refl)
         | |- context [(?x =? c)%char] =>
             rewrite (Ascii.eqb_sym x c), (digit_neq c x Hc eq_refl)
         end.

Section StringScanFacts.

Import Json JsonText.

Lemma scanstring_u_escape h1 h2 h3 h4 r2 :
  scanstring (u_escape h1 h2 h3 h4 r2) =
  match hex4 h1 h2 h3 h4 with
  | None => None
  | Some cp =>
      if is_high_surrogate cp then after_high cp r2
      else prepend (utf8 cp) (scanstring r2)
  end.
Proof. reflexivity. Qed.

Lemma after_high_pair hi k1 k2 k3 k4 lo r4 :
  hex4 k1 k2 k3 k4 = Some lo -> is_low_surrogate lo = true ->
  after_high hi (u_escape k1 k2 k3 k4 r4) =
  prepend (utf8 (join_surrogates hi lo)) (scanstring r4).
Proof. intros H1 H2. cbn. now rewrite H1, H2. Qed.

Lemma scanstring_simple_escape e ch r :
  simple_escape e = Some ch ->
  scanstring (String backslash (String e r)) = prepend (String ch "") (scanstring r).
Proof.
  intros H. cbn [scanstring].
  change ((backslash =? "034")%char) with false.
  change ((backslash =? "\")%char) with true. cbv iota.
  destruct (Ascii.eqb_spec e "u") as [->|_]; [discriminate|]. now rewrite H.
Qed.

Lemma scanstring_plain c r :
  c <> dquote -> c <> backslash -> is_control c = false ->
  scanstring (String c r) = prepend (String c "") (scanstring r).
Proof.
  intros H1 H2 H3. cbn [scanstring].
  apply Ascii.eqb_neq in H1, H2. unfold dquote, backslash in *.
  now rewrite H1, H2, H3.
Qed.

Lemma chars_u_shape t2 s :
  chars (String backslash (String "u" t2)) s ->
  exists k1 k2 k3 k4 t' cp,
    t2 = String k1 (String k2 (String k3 (String k4 t'))) /\
    hex4 k1 k2 k3 k4 = Some cp.
Proof.
  intros H. inversion H; subst.
  - now match goal with H : backslash <> backslash |- _ => destruct H end.
  - discriminate.
  - eauto 10.
  - eauto 10.
  - eauto 10.
Qed.

Lemma after_high_lone hi t s r :
  chars t s -> ~ low_escape_ahead t ->
  after_high hi (t ++ String dquote r) = prepend (utf8 hi) (scanstring (t ++ String dquote r)).
Proof.
  intros Ht Hlow.
  destruct t as [|b [|u t2]]; cbn [append].
  - destruct r; reflexivity.
  - unfold after_high. now rewrite andb_false_r.
  - unfold after_high.
    destruct (Ascii.eqb_spec b "\") as [->|_]; [|reflexivity].
    destruct (Ascii.eqb_spec u "u") as [->|_]; [|reflexivity].
    cbn [andb].
    destruct (chars_u_shape _ _ Ht) as (k1 & k2 & k3 & k4 & t' & cp & -> & Hcp).
    cbn [append]. rewrite Hcp.
    destruct (is_low_surrogate cp) eqn:Hl; [|reflexivity].
    destruct Hlow. exists k1, k2, k3, k4, t', cp. auto.
Qed.

Lemma prepend_some p s r : prepend p (Some (s, r)) = Some (p ++ s, r).
Proof. reflexivity. Qed.

(** [scanstring] reads the body of a string literal as the grammar does. *)
Lemma scanstring_complete t s :
  chars t s -> forall r, scanstring (t ++ String dquote r) = Some (s, r).
Proof.
  induction 1 as [|c t s H1 H2 H3 _ IH|e ch t s He _ IH
                  |h1 h2 h3 h4 cp t s Hcp Hhi _ IH
                  |h1 h2 h3 h4 k1 k2 k3 k4 hi lo t s Hh Hhi Hl Hlo _ IH
                  |h1 h2 h3 h4 hi t s Hh Hhi Hlow Ht IH]; intros r.
  - reflexivity.
  - cbn [append]. now rewrite scanstring_plain, IH.
  - cbn [append]. now rewrite (scanstring_simple_escape _ _ _ He), IH.
  - change (u_escape h1 h2 h3 h4 t ++ String dquote r)
      with (u_escape h1 h2 h3 h4 (t ++ String dquote r)).
    now rewrite scanstring_u_escape, Hcp, Hhi, IH.
  - change (u_escape h1 h2 h3 h4 (u_escape k1 k2 k3 k4 t) ++ String dquote r)
      with (u_escape h1 h2 h3 h4 (u_escape k1 k2 k3 k4 (t ++ String dquote r))).
    now rewrite scanstring_u_escape, Hh, Hhi, (after_high_pair _ _ _ _ _ _ _ Hl Hlo), IH.
  - change (u_escape h1 h2 h3 h4 t ++ String dquote r)
      with (u_escape h1 h2 h3 h4 (t ++ String dquote r)).
    now rewrite scanstring_u_escape, Hh, Hhi, (after_high_lone _ _ _ _ Ht Hlow), IH.
Qed.

End StringScanFacts.

Section DecoderFacts.

Import Json JsonText.

Lemma scan_once_string n r :
  scan_once (S n) (String dquote r) =
  match scanstring r with
  | Some (str, r') => Some (PStr str, r')
  | None => None
  end.
Proof. reflexivity. Qed.

Lemma scan_once_array n r :
  scan_once (S n) (String "[" r) =
  match skip_ws r with
  | String c1 r1 =>
      if (c1 =? "]")%char then Some (PList [], r1)
      else match parse_array n (String c1 r1) with
           | Some (vs, r') => Some (PList vs, r')
           | None => None
           end
  | EmptyString => None
  end.
Proof. reflexivity. Qed.

Lemma scan_once_object n r :
  scan_once (S n) (String "{" r) =
  match skip_ws r with
  | String c1 r1 =>
      if (c1 =? "}")%char then Some (PDict [], r1)
      else match parse_object n (String c1 r1) with
           | Some (ps, r') => Some (PDict (dict_of_pairs ps), r')
           | None => None
           end
  | EmptyString => None
  end.
Proof. reflexivity. Qed.

Lemma parse_array_step n s :
  parse_array (S n) s =
  match scan_once n s with
  | None => None
  | Some (v, r) =>
      match skip_ws r with
      | String c r1 =>
          if (c =? "]")%char then Some ([v], r1)
          else if (c =? ",")%char then
            match parse_array n (skip_ws r1) with
            | Some (vs, r') => Some (v :: vs, r')
            | None => None
            end
          else None
      | EmptyString => None
      end
  end.
Proof. reflexivity. Qed.

Lemma parse_object_step n r0 :
  parse_object (S n) (String dquote r0) =
  match scanstring r0 with
  | None => None
  | Some (key, r) =>
      match skip_ws r with
      | String c r1 =>
          if (c =? ":")%char then
            match scan_once n (skip_ws r1) with
            | None => None
            | Some (v, r2) =>
                match skip_ws r2 with
                | String c2 r3 =>
                    if (c2 =? "}")%char then Some ([(key, v)], r3)
                    else if (c2 =? ",")%char then
                      match parse_object n (skip_ws r3) with
                      | Some (ps, r') => Some ((key, v) :: ps, r')
                      | None => None
                      end
                    else None
                | EmptyString => None
                end
            end
          else None
      | EmptyString => None
      end
  end.
Proof. reflexivity. Qed.

Lemma digit_not_ws c : is_digit c = true -> is_ws c = false.
Proof. intros H. unfold is_ws. now digit_tests c H. Qed.

Lemma number_head t v :
  number t v ->
  exists c t', t = String c t' /\ ((c =? "-")%char = true \/ is_digit c = true).
Proof.
  intros [neg ip frac et exp Hip _ _].
  destruct (int_part_head ip Hip) as (c & d & -> & Hc & _).
  destruct neg; cbn [append]; eauto.
Qed.

Lemma value_head t v : value t v -> exists c t', t = String c t' /\ value_start c.
Proof.
  unfold value_start.
  destruct 1 as [| | | | | |t v Hn| | | | |];
    try (eexists _, _; split; [reflexivity|]; repeat split; reflexivity).
  destruct (number_head t v Hn) as (c & t' & -> & [Hc|Hc]).
  - apply Ascii.eqb_eq in Hc. subst c. eexists _, _. repeat split; reflexivity.
  - exists c, t'. split; [reflexivity|].
    rewrite (digit_not_ws c Hc). digit_tests c Hc. auto.
Qed.

Lemma skip_ws_value w t v rest :
  all_ws w = true -> value t v -> skip_ws (w ++ t ++ rest) = t ++ rest.
Proof.
  intros Hw Hv. rewrite (skip_ws_all_ws _ _ Hw).
  destruct (value_head t v Hv) as (c & t' & -> & Hc & _).
  cbn [append]. now apply skip_ws_start.
Qed.

Lemma skip_ws_then c w rest :
  all_ws w = true -> is_ws c = false -> skip_ws (w ++ String c rest) = String c rest.
Proof. intros Hw Hc. rewrite (skip_ws_all_ws _ _ Hw). now apply skip_ws_start. Qed.

Lemma delimited_after w c rest :
  all_ws w = true -> is_delimiter c = true -> delimited (w ++ String c rest).
Proof.
  intros Hw Hc. destruct w as [|a w]; cbn; [exact Hc|].
  cbn in Hw. apply andb_true_iff in Hw. destruct Hw as [Ha _].
  unfold is_delimiter. now rewrite Ha.
Qed.

(** The scanner takes a number when the text begins like one. *)
Lemma scan_once_number n t v r :
  number t v -> scan_once (S n) (t ++ r) = match_number (t ++ r).
Proof.
  intros [neg ip frac et exp Hip _ _].
  destruct (int_part_head ip Hip) as (c & d & -> & Hc & _).
  rewrite !append_assoc. destruct neg; cbn [append].
  - cbn [scan_once]. cbn [strip_prefix].
    change (("-" =? "034")%char) with false.
    change (("-" =? "{")%char) with false.
    change (("-" =? "[")%char) with false.
    change (("n" =? "-")%char) with false.
    change (("t" =? "-")%char) with false.
    change (("f" =? "-")%char) with false.
    change (("N" =? "-")%char) with false.
    change (("I" =? "-")%char) with false.
    change (("-" =? "-")%char) with true.
    cbv iota.
    digit_tests c Hc. reflexivity.
  - cbn [scan_once]. cbn [strip_prefix].
    digit_tests c Hc. reflexivity.
Qed.

End DecoderFacts.

Section DecoderComplete.

Import Json JsonText.

Lemma elements_head t vs rest :
  elements t vs ->
  exists c r1, skip_ws (t ++ rest) = String c r1 /\ (c =? "]")%char = false.
Proof.
  intros H.
  assert (Hgen : forall w1 t0 v tail, all_ws w1 = true -> value t0 v ->
            exists c r1, skip_ws ((w1 ++ t0 ++ tail) ++ rest) = String c r1 /\
                         (c =? "]")%char = false).
  { intros w1 t0 v tail Hw Hv. rewrite !append_assoc.
    rewrite (skip_ws_value _ _ _ _ Hw Hv).
    destruct (value_head _ _ Hv) as (c & t' & -> & _ & Hc & _).
    cbn [append]. eauto. }
  destruct H; eauto.
Qed.

Lemma members_head t ps rest :
  members t ps ->
  exists r1, skip_ws (t ++ rest) = String dquote r1.
Proof.
  destruct 1 as [w1 kt k w2 w3 t v w4 Hw1 _ _ _ _ _
                |w1 kt k w2 w3 t v w4 t' ps Hw1 _ _ _ _ _ _];
    rewrite append_assoc; cbn [append]; rewrite (skip_ws_then dquote _ _ Hw1 eq_refl); eauto.
Qed.

(** The decoder reads every well-formed value, array body and object
    body, given fuel in proportion to the length of the text. *)
Lemma decoder_complete :
  (forall t v, value t v ->
     forall r n, delimited r -> 2 * String.length t <= n ->
                 scan_once n (t ++ r) = Some (v, r)) /\
  (forall t vs, elements t vs ->
     forall r n, 2 * String.length t + 1 <= n ->
                 parse_array n (skip_ws (t ++ String "]" r)) = Some (vs, r)) /\
  (forall t ps, members t ps ->
     forall r n, 2 * String.length t + 1 <= n ->
                 parse_object n (skip_ws (t ++ String "}" r)) = Some (ps, r)).
Proof.
  apply grammar_ind.
  - intros r [|n] _ Hn; [cbn in Hn; lia|reflexivity].
  - intros r [|n] _ Hn; [cbn in Hn; lia|reflexivity].
  - intros r [|n] _ Hn; [cbn in Hn; lia|reflexivity].
  - intros r [|n] _ Hn; [cbn in Hn; lia|reflexivity].
  - intros r [|n] _ Hn; [cbn in Hn; lia|reflexivity].
  - intros r [|n] _ Hn; [cbn in Hn; lia|reflexivity].
  - (* number *)
    intros t v Hnum r [|n] Hr Hn.
    + destruct (number_head _ _ Hnum) as (c & t' & -> & _). cbn in Hn. lia.
    + rewrite (scan_once_number _ _ _ _ Hnum). now apply match_number_complete.
  - (* string *)
    intros t s Hc r [|n] _ Hn; [cbn in Hn; lia|].
    cbn [append]. rewrite scan_once_string, append_assoc. cbn [append].
    now rewrite (scanstring_complete _ _ Hc).
  - (* empty array *)
    intros w Hw r [|n] _ Hn; [cbn in Hn; lia|].
    cbn [append]. rewrite scan_once_array, append_assoc. cbn [append].
    now rewrite (skip_ws_then "]" _ _ Hw eq_refl).
  - (* array *)
    intros t vs Hel IH r [|n] _ Hn; [cbn in Hn; lia|].
    cbn [append]. rewrite scan_once_array, append_assoc. cbn [append].
    destruct (elements_head t vs (String "]" r) Hel) as (c1 & r1 & Hskip & Hc1).
    assert (Hpa := IH r n ltac:(lengths)).
    rewrite Hskip in Hpa |- *. now rewrite Hc1, Hpa.
  - (* empty object *)
    intros w Hw r [|n] _ Hn; [cbn in Hn; lia|].
    cbn [append]. rewrite scan_once_object, append_assoc. cbn [append].
    now rewrite (skip_ws_then "}" _ _ Hw eq_refl).
  - (* object *)
    intros t ps Hm IH r [|n] _ Hn; [cbn in Hn; lia|].
    cbn [append]. rewrite scan_once_object, append_assoc. cbn [append].
    destruct (members_head t ps (String "}" r) Hm) as (r1 & Hskip).
    assert (Hpo := IH r n ltac:(lengths)).
    rewrite Hskip in Hpo |- *.
    change ((dquote =? "}")%char) with false. cbv iota. now rewrite Hpo.
  - (* last element *)
    intros w1 t v w2 Hw1 Hv IH Hw2 r [|n] Hn; [lia|].
    rewrite !append_assoc, (skip_ws_value _ _ _ _ Hw1 Hv), parse_array_step.
    rewrite (IH (w2 ++ String "]" r) n (delimited_after _ "]" _ Hw2 eq_refl)
               ltac:(lengths)).
    now rewrite (skip_ws_then "]" _ _ Hw2 eq_refl).
  - (* more elements *)
    intros w1 t v w2 t' vs Hw1 Hv IHv Hw2 Hel IH r [|n] Hn; [lia|].
    rewrite !append_assoc. cbn [append].
    rewrite (skip_ws_value _ _ _ _ Hw1 Hv), parse_array_step.
    rewrite (IHv (w2 ++ String "," (t' ++ String "]" r)) n
               (delimited_after _ "," _ Hw2 eq_refl) ltac:(lengths)).
    rewrite (skip_ws_then "," _ _ Hw2 eq_refl).
    change (("," =? "]")%char) with false. change (("," =? ",")%char) with true.
    cbv iota. now rewrite (IH r n ltac:(lengths)).
  - (* last member *)
    intros w1 kt k w2 w3 t v w4 Hw1 Hk Hw2 Hw3 Hv IHv Hw4 r [|n] Hn; [lia|].
    rewrite append_assoc. cbn [append].
    rewrite (skip_ws_then dquote _ _ Hw1 eq_refl), parse_object_step.
    rewrite append_assoc. cbn [append].
    rewrite (scanstring_complete _ _ Hk), append_assoc. cbn [append].
    rewrite (skip_ws_then ":" _ _ Hw2 eq_refl).
    change ((":" =? ":")%char) with true. cbv iota.
    rewrite !append_assoc, (skip_ws_value _ _ _ _ Hw3 Hv).
    rewrite (IHv (w4 ++ String "}" r) n (delimited_after _ "}" _ Hw4 eq_refl)
               ltac:(lengths)).
    now rewrite (skip_ws_then "}" _ _ Hw4 eq_refl).
  - (* more members *)
    intros w1 kt k w2 w3 t v w4 t' ps Hw1 Hk Hw2 Hw3 Hv IHv Hw4 Hm IH r [|n] Hn;
      [lia|].
    rewrite append_assoc. cbn [append].
    rewrite (skip_ws_then dquote _ _ Hw1 eq_refl), parse_object_step.
    rewrite append_assoc. cbn [append].
    rewrite (scanstring_complete _ _ Hk), append_assoc. cbn [append].
    rewrite (skip_ws_then ":" _ _ Hw2 eq_refl).
    change ((":" =? ":")%char) with true. cbv iota.
    rewrite !append_assoc. cbn [append].
    rewrite (skip_ws_value _ _ _ _ Hw3 Hv).
    rewrite (IHv (w4 ++ String "," (t' ++ String "}" r)) n
               (delimited_after _ "," _ Hw4 eq_refl) ltac:(lengths)).
    rewrite (skip_ws_then "," _ _ Hw4 eq_refl).
    change (("," =? "}")%char) with false. change (("," =? ",")%char) with true.
    cbv iota. now rewrite (IH r n ltac:(lengths)).
Qed.

End DecoderComplete.

Section LoadsComplete.

Import Json JsonText.

Lemma skip_ws_only w : all_ws w = true -> skip_ws w = "".
Proof.
  induction w as [|c w IH]; cbn; [reflexivity|].
  intros [Hc Hw]%andb_true_iff. rewrite Hc. auto.
Qed.

Lemma all_ws_delimited w : all_ws w = true -> delimited w.
Proof.
  destruct w as [|c w]; cbn; [trivial|].
  intros [Hc _]%andb_true_iff. unfold is_delimiter. now rewrite Hc.
Qed.

Lemma prefix_bom_head c s : String.prefix bom (String c s) = true -> c = "239"%char.
Proof.
  unfold bom. cbn [String.prefix].
  destruct (ascii_dec "239" c) as [<-|]; [reflexivity|discriminate].
Qed.

Lemma document_no_bom text v : document text v -> String.prefix bom text = false.
Proof.
  intros (w1 & t & w2 & Hw1 & Hv & _ & ->).
  destruct (value_head t v Hv) as (c & t' & -> & Hws & _ & _ & Hbom).
  destruct (String.prefix bom _) eqn:Hp; [|reflexivity]. exfalso.
  destruct w1 as [|a w1]; cbn [append] in Hp; apply prefix_bom_head in Hp; subst.
  - discriminate.
  - discriminate.
Qed.

(** [json.loads] returns the value of every well-formed document. *)
Theorem loads_complete text v : document text v -> loads text = Ok v.
Proof.
  intros Hdoc. unfold loads. rewrite (document_no_bom _ _ Hdoc).
  destruct Hdoc as (w1 & t & w2 & Hw1 & Hv & Hw2 & ->).
  rewrite (skip_ws_value _ _ _ _ Hw1 Hv).
  rewrite (proj1 decoder_complete t v Hv w2 _ (all_ws_delimited _ Hw2))
    by (rewrite !length_append; lia).
  now rewrite (skip_ws_only _ Hw2).
Qed.

End LoadsComplete.

(** ** [json.loads] accepts only well-formed text *)

Section ScannerSound.

Import Json JsonText.

Lemma skip_ws_split s : exists w, all_ws w = true /\ s = w ++ skip_ws s.
Proof.
  induction s as [|c s (w & Hw & Hs)]; [now exists ""|].
  cbn [skip_ws]. destruct (is_ws c) eqn:Hc.
  - exists (String c w). cbn. rewrite Hc, Hw. split; [reflexivity|]. now rewrite <- Hs.
  - now exists "".
Qed.

Lemma all_ws_app w1 w2 : all_ws w1 = true -> all_ws w2 = true -> all_ws (w1 ++ w2) = true.
Proof.
  induction w1 as [|c w1 IH]; cbn; [easy|].
  intros [Hc Hw]%andb_true_iff H2. rewrite Hc. auto.
Qed.

Lemma strip_prefix_sound p s r : strip_prefix p s = Some r -> s = p ++ r.
Proof.
  revert s. induction p as [|a p IH]; cbn; intros s.
  - now intros [= ->].
  - destruct s as [|b s]; [discriminate|].
    destruct (Ascii.eqb_spec a b) as [->|]; [|discriminate].
    intros H. now rewrite (IH _ H).
Qed.

Lemma span_digits_sound s d r :
  span_digits s = (d, r) -> s = d ++ r /\ all_digits d = true.
Proof.
  revert d r. induction s as [|c s IH]; cbn [span_digits]; intros d r.
  - now intros [= <- <-].
  - destruct (is_digit c) eqn:Hc.
    + destruct (span_digits s) as [d' r']. intros [= <- <-].
      destruct (IH _ _ eq_refl) as [-> Hd]. cbn. now rewrite Hc, Hd.
    + now intros [= <- <-].
Qed.

Lemma match_integer_sound s ip r :
  match_integer s = Some (ip, r) -> s = ip ++ r /\ int_part ip.
Proof.
  unfold match_integer. destruct s as [|c s]; [discriminate|].
  destruct (Ascii.eqb_spec c "0") as [->|Hz].
  - intros [= <- <-]. split; [reflexivity|now left].
  - destruct (is_digit c) eqn:Hc; [|discriminate].
    destruct (span_digits s) as [d r'] eqn:Hs. intros [= <- <-].
    destruct (span_digits_sound _ _ _ Hs) as [-> Hd].
    split; [reflexivity|]. right. exists c, d. auto.
Qed.

Lemma match_frac_sound s frac r :
  match_frac s = (frac, r) ->
  all_digits frac = true /\ s = (if frac =? "" then "" else String "." frac) ++ r.
Proof.
  unfold match_frac. destruct s as [|c s]; [now intros [= <- <-]|].
  destruct (Ascii.eqb_spec c ".") as [->|_]; [|now intros [= <- <-]].
  destruct (span_digits s) as [d r'] eqn:Hs.
  destruct (span_digits_sound _ _ _ Hs) as [-> Hd].
  destruct d as [|a d]; intros [= <- <-]; auto.
Qed.

Lemma match_exp_sound s exp r :
  match_exp s = (exp, r) -> exists et, exp_part et exp /\ s = et ++ r.
Proof.
  unfold match_exp. destruct s as [|c s].
  { intros [= <- <-]. exists "". split; [constructor|reflexivity]. }
  destruct ((c =? "e")%char || (c =? "E")%char) eqn:He.
  2:{ intros [= <- <-]. exists "". split; [constructor|reflexivity]. }
  assert (Hc : c = "e"%char \/ c = "E"%char).
  { apply orb_true_iff in He. destruct He as [H|H]; apply Ascii.eqb_eq in H; auto. }
  assert (Hgen : forall sign neg r1, s = sign ++ r1 ->
            (sign = "" /\ neg = false) \/ (sign = "+" /\ neg = false) \/
              (sign = "-" /\ neg = true) ->
            match span_digits r1 with
            | (EmptyString, _) => (None, String c s)
            | (d, r') => (Some (neg, d), r')
            end = (exp, r) ->
            exists et, exp_part et exp /\ String c s = et ++ r).
  { intros sign neg r1 -> Hsign. destruct (span_digits r1) as [d r'] eqn:Hs.
    destruct (span_digits_sound _ _ _ Hs) as [-> Hd].
    destruct d as [|a d].
    - intros [= <- <-]. exists "". split; [constructor|reflexivity].
    - intros [= <- <-]. exists (String c (sign ++ String a d)).
      split; [now constructor|]. cbn. now rewrite append_assoc. }
  destruct s as [|sg s'].
  - apply (Hgen "" false ""); auto.
  - destruct (Ascii.eqb_spec sg "-") as [->|_]; [apply (Hgen "-" true s'); auto|].
    destruct (Ascii.eqb_spec sg "+") as [->|_]; [apply (Hgen "+" false s'); auto|].
    apply (Hgen "" false (String sg s')); auto.
Qed.

Lemma match_number_sound s v r :
  match_number s = Some (v, r) -> exists t, number t v /\ s = t ++ r.
Proof.
  assert (Hgen : forall (neg : bool) s1,
            match match_integer s1 with
            | None => None
            | Some (ip, r1) =>
                let (frac, r2) := match_frac r1 in
                let (exp, r3) := match_exp r2 in
                Some (number_value neg ip frac exp, r3)
            end = Some (v, r) ->
            exists t, number t v /\ (if neg then "-" else "") ++ s1 = t ++ r).
  { intros neg s1.
    destruct (match_integer s1) as [[ip r1]|] eqn:Hi; [|discriminate].
    destruct (match_frac r1) as [frac r2] eqn:Hf.
    destruct (match_exp r2) as [exp r3] eqn:He. intros [= <- <-].
    destruct (match_integer_sound _ _ _ Hi) as [-> Hip].
    destruct (match_frac_sound _ _ _ Hf) as [Hfrac ->].
    destruct (match_exp_sound _ _ _ He) as (et & Het & ->).
    eexists. split; [exact (number_intro neg ip frac et exp Hip Hfrac Het)|].
    now rewrite !append_assoc. }
  unfold match_number. destruct s as [|c s]; [apply (Hgen false "")|].
  destruct (Ascii.eqb_spec c "-") as [->|_].
  - apply (Hgen true s).
  - apply (Hgen false (String c s)).
Qed.

Lemma prepend_inv p x str r :
  prepend p x = Some (str, r) -> exists s', x = Some (s', r) /\ str = p ++ s'.
Proof. destruct x as [[s' r']|]; cbn; [|discriminate]. intros [= <- <-]. eauto. Qed.

Lemma scanstring_step c r0 :
  scanstring (String c r0) =
  if (c =? "034")%char then Some ("", r0)
  else if (c =? "\")%char then
    match r0 with
    | EmptyString => None
    | String e r1 =>
        if (e =? "u")%char then
          match r1 with
          | String h1 (String h2 (String h3 (String h4 r2))) =>
              match hex4 h1 h2 h3 h4 with
              | None => None
              | Some cp =>
                  if is_high_surrogate cp then after_high cp r2
                  else prepend (utf8 cp) (scanstring r2)
              end
          | _ => None
          end
        else
          match simple_escape e with
          | Some ch => prepend (String ch "") (scanstring r1)
          | None => None
          end
    end
  else if is_control c then None
  else prepend (String c "") (scanstring r0).
Proof. reflexivity. Qed.

Lemma after_high_inv hi r2 str r :
  after_high hi r2 = Some (str, r) ->
  (exists k1 k2 k3 k4 r4 lo,
      r2 = u_escape k1 k2 k3 k4 r4 /\ hex4 k1 k2 k3 k4 = Some lo /\
      is_low_surrogate lo = true /\
      prepend (utf8 (join_surrogates hi lo)) (scanstring r4) = Some (str, r)) \/
  ((forall k1 k2 k3 k4 r4 lo,
      r2 = u_escape k1 k2 k3 k4 r4 -> hex4 k1 k2 k3 k4 = Some lo ->
      is_low_surrogate lo = false) /\
   prepend (utf8 hi) (scanstring r2) = Some (str, r)).
Proof.
  unfold after_high, u_escape, backslash.
  destruct r2 as [|b [|u r3]].
  - intros H. right. split; [discriminate|exact H].
  - intros H. right. split; [discriminate|exact H].
  - destruct (Ascii.eqb_spec b "\") as [->|Hb]; cbn [andb].
    2:{ intros H. right. split; [|exact H]. intros ? ? ? ? ? ? [= -> _]. now destruct Hb. }
    destruct (Ascii.eqb_spec u "u") as [->|Hu].
    2:{ intros H. right. split; [|exact H]. intros ? ? ? ? ? ? [= -> _]. now destruct Hu. }
    destruct r3 as [|k1 [|k2 [|k3 [|k4 r4]]]]; try discriminate.
    destruct (hex4 k1 k2 k3 k4) as [lo|] eqn:Hlo; [|discriminate].
    destruct (is_low_surrogate lo) eqn:Hl.
    + intros H. left. exists k1, k2, k3, k4, r4, lo. auto.
    + intros H. right. split; [|exact H].
      intros ? ? ? ? ? ? [= <- <- <- <- <-] Hx. congruence.
Qed.

(** What [scanstring] returns is the string a well-formed literal body
    stands for. *)
Lemma scanstring_sound_upto n :
  forall s, String.length s <= n ->
  forall str r, scanstring s = Some (str, r) ->
  exists t, chars t str /\ s = t ++ String dquote r.
Proof.
  induction n as [|n IH]; intros s Hlen str r.
  { destruct s; [discriminate|cbn in Hlen; lia]. }
  destruct s as [|c r0]; [discriminate|]. rewrite scanstring_step.
  destruct (Ascii.eqb_spec c "034") as [->|Hq].
  { intros [= <- <-]. exists "". split; [constructor|reflexivity]. }
  destruct (Ascii.eqb_spec c "\") as [->|Hb].
  - destruct r0 as [|e r1]; [discriminate|].
    destruct (Ascii.eqb_spec e "u") as [->|Hu].
    + destruct r1 as [|h1 [|h2 [|h3 [|h4 r2]]]]; try discriminate.
      destruct (hex4 h1 h2 h3 h4) as [cp|] eqn:Hcp; [|discriminate].
      cbn [String.length] in Hlen.
      destruct (is_high_surrogate cp) eqn:Hhi.
      * intros H. apply after_high_inv in H.
        destruct H as [(k1 & k2 & k3 & k4 & r4 & lo & -> & Hlo & Hl & H)|[Hnot H]].
        -- apply prepend_inv in H. destruct H as (s' & Hs & ->).
           apply IH in Hs; [|cbn [String.length u_escape] in *; lia].
           destruct Hs as (t & Ht & ->).
           exists (u_escape h1 h2 h3 h4 (u_escape k1 k2 k3 k4 t)).
           split; [now apply (chars_pair h1 h2 h3 h4 k1 k2 k3 k4 cp lo)|reflexivity].
        -- apply prepend_inv in H. destruct H as (s' & Hs & ->).
           apply IH in Hs; [|lia]. destruct Hs as (t & Ht & ->).
           exists (u_escape h1 h2 h3 h4 t). split; [|reflexivity].
           apply chars_lone; auto.
           intros (k1 & k2 & k3 & k4 & r' & lo & -> & Hlo & Hl).
           specialize (Hnot k1 k2 k3 k4 (r' ++ String dquote r) lo eq_refl Hlo).
           congruence.
      * intros H. apply prepend_inv in H. destruct H as (s' & Hs & ->).
        apply IH in Hs; [|lia]. destruct Hs as (t & Ht & ->).
        exists (u_escape h1 h2 h3 h4 t). split; [|reflexivity].
        now apply chars_unicode.
    + destruct (simple_escape e) as [ch|] eqn:He; [|discriminate].
      intros H. apply prepend_inv in H. destruct H as (s' & Hs & ->).
      apply IH in Hs; [|cbn [String.length] in Hlen; lia].
      destruct Hs as (t & Ht & ->).
      exists (String backslash (String e t)). split; [|reflexivity].
      now apply chars_escape.
  - destruct (is_control c) eqn:Hctl; [discriminate|].
    intros H. apply prepend_inv in H. destruct H as (s' & Hs & ->).
    apply IH in Hs; [|cbn [String.length] in Hlen; lia].
    destruct Hs as (t & Ht & ->).
    exists (String c t). split; [|reflexivity].
    now apply chars_plain.
Qed.

Lemma scanstring_sound s str r :
  scanstring s = Some (str, r) ->
  exists t, chars t str /\ s = t ++ String dquote r.
Proof. apply (scanstring_sound_upto (String.length s)). lia. Qed.

End ScannerSound.

Section DecoderSound.

Import Json JsonText.

Lemma elements_ws w t vs : all_ws w = true -> elements t vs -> elements (w ++ t) vs.
Proof.
  intros Hw [w1 t0 v w2 H1 Hv H2|w1 t0 v w2 t' vs' H1 Hv H2 Hel];
    rewrite <- append_assoc.
  - apply elements_last; auto using all_ws_app.
  - apply elements_more; auto using all_ws_app.
Qed.

Lemma members_ws w t ps : all_ws w = true -> members t ps -> members (w ++ t) ps.
Proof.
  intros Hw [w1 kt k w2 w3 t0 v w4 H1 Hk H2 H3 Hv H4
            |w1 kt k w2 w3 t0 v w4 t' ps' H1 Hk H2 H3 Hv H4 Hm];
    rewrite <- append_assoc.
  - apply members_last; auto using all_ws_app.
  - apply members_more; auto using all_ws_app.
Qed.

Lemma scan_once_step n c r :
  scan_once (S n) (String c r) =
  if (c =? "034")%char then
    match scanstring r with
    | Some (str, r') => Some (PStr str, r')
    | None => None
    end
  else if (c =? "{")%char then
    match skip_ws r with
    | String c1 r1 =>
        if (c1 =? "}")%char then Some (PDict [], r1)
        else match parse_object n (String c1 r1) with
             | Some (ps, r') => Some (PDict (dict_of_pairs ps), r')
             | None => None
             end
    | EmptyString => None
    end
  else if (c =? "[")%char then
    match skip_ws r with
    | String c1 r1 =>
        if (c1 =? "]")%char then Some (PList [], r1)
        else match parse_array n (String c1 r1) with
             | Some (vs, r') => Some (PList vs, r')
             | None => None
             end
    | EmptyString => None
    end
  else
    match strip_prefix "null" (String c r) with
    | Some r' => Some (PNone, r')
    | None =>
    match strip_prefix "true" (String c r) with
    | Some r' => Some (PBool true, r')
    | None =>
    match strip_prefix "false" (String c r) with
    | Some r' => Some (PBool false, r')
    | None =>
    match strip_prefix "NaN" (String c r) with
    | Some r' => Some (PFloat S754_nan, r')
    | None =>
    match strip_prefix "Infinity" (String c r) with
    | Some r' => Some (PFloat (S754_infinity false), r')
    | None =>
    match strip_prefix "-Infinity" (String c r) with
    | Some r' => Some (PFloat (S754_infinity true), r')
    | None => match_number (String c r)
    end end end end end end.
Proof. reflexivity. Qed.

Lemma parse_object_head n s ps r :
  parse_object (S n) s = Some (ps, r) -> exists r0, s = String dquote r0.
Proof.
  destruct s as [|q r0]; [discriminate|]. cbn [parse_object].
  destruct (Ascii.eqb_spec q "034") as [->|]; [eauto|discriminate].
Qed.

(** Whatever the decoder returns, the text it consumed is well formed
    and stands for the value returned. *)
Lemma decoder_sound n :
  (forall s v r, scan_once n s = Some (v, r) ->
                 exists t, value t v /\ s = t ++ r) /\
  (forall s vs r, parse_array n s = Some (vs, r) ->
                  exists t, elements t vs /\ s = t ++ String "]" r) /\
  (forall s ps r, parse_object n s = Some (ps, r) ->
                  exists t, members t ps /\ s = t ++ String "}" r).
Proof.
  induction n as [|n (IHv & IHa & IHo)]; [repeat split; discriminate|].
  repeat split.
  - (* scan_once *)
    intros s v r. destruct s as [|c s]; [discriminate|]. rewrite scan_once_step.
    destruct (Ascii.eqb_spec c "034") as [->|_].
    { destruct (scanstring s) as [[str r']|] eqn:Hs; [|discriminate].
      intros [= <- <-]. destruct (scanstring_sound _ _ _ Hs) as (t & Ht & ->).
      exists (String dquote (t ++ String dquote "")).
      split; [now constructor|]. now norm_app. }
    destruct (Ascii.eqb_spec c "{") as [->|_].
    { destruct (skip_ws_split s) as (w & Hw & Hs).
      destruct (skip_ws s) as [|c1 r1]; [discriminate|]. rewrite Hs.
      destruct (Ascii.eqb_spec c1 "}") as [->|_].
      - intros [= <- <-]. exists (String "{" (w ++ "}")).
        split; [now constructor|]. now norm_app.
      - destruct (parse_object n (String c1 r1)) as [[ps r']|] eqn:Hp; [|discriminate].
        intros [= <- <-]. destruct (IHo _ _ _ Hp) as (t & Ht & ->).
        exists (String "{" ((w ++ t) ++ "}")).
        split; [constructor; now apply members_ws|].
        now norm_app. }
    destruct (Ascii.eqb_spec c "[") as [->|_].
    { destruct (skip_ws_split s) as (w & Hw & Hs).
      destruct (skip_ws s) as [|c1 r1]; [discriminate|]. rewrite Hs.
      destruct (Ascii.eqb_spec c1 "]") as [->|_].
      - intros [= <- <-]. exists (String "[" (w ++ "]")).
        split; [now constructor|]. now norm_app.
      - destruct (parse_array n (String c1 r1)) as [[vs r']|] eqn:Hp; [|discriminate].
        intros [= <- <-]. destruct (IHa _ _ _ Hp) as (t & Ht & ->).
        exists (String "[" ((w ++ t) ++ "]")).
        split; [constructor; now apply elements_ws|].
        now norm_app. }
    destruct (strip_prefix "null" _) as [r'|] eqn:H1.
    { intros [= <- <-]. apply strip_prefix_sound in H1. eexists. split; [constructor|eassumption]. }
    destruct (strip_prefix "true" _) as [r'|] eqn:H2.
    { intros [= <- <-]. apply strip_prefix_sound in H2. eexists. split; [constructor|eassumption]. }
    destruct (strip_prefix "false" _) as [r'|] eqn:H3.
    { intros [= <- <-]. apply strip_prefix_sound in H3. eexists. split; [constructor|eassumption]. }
    destruct (strip_prefix "NaN" _) as [r'|] eqn:H4.
    { intros [= <- <-]. apply strip_prefix_sound in H4. eexists. split; [constructor|eassumption]. }
    destruct (strip_prefix "Infinity" _) as [r'|] eqn:H5.
    { intros [= <- <-]. apply strip_prefix_sound in H5. eexists. split; [constructor|eassumption]. }
    destruct (strip_prefix "-Infinity" _) as [r'|] eqn:H6.
    { intros [= <- <-]. apply strip_prefix_sound in H6. eexists. split; [constructor|eassumption]. }
    intros H. destruct (match_number_sound _ _ _ H) as (t & Ht & ->).
    exists t. split; [now apply value_number|reflexivity].
  - (* parse_array *)
    intros s vs r. rewrite parse_array_step.
    destruct (scan_once n s) as [[v r1]|] eqn:Hv; [|discriminate].
    destruct (IHv _ _ _ Hv) as (t & Ht & ->).
    destruct (skip_ws_split r1) as (w & Hw & Hr1).
    destruct (skip_ws r1) as [|c r2]; [discriminate|]. rewrite Hr1.
    destruct (Ascii.eqb_spec c "]") as [->|_].
    + intros [= <- <-]. exists ("" ++ t ++ w).
      split; [now apply elements_last|]. now norm_app.
    + destruct (Ascii.eqb_spec c ",") as [->|_]; [|discriminate].
      destruct (skip_ws_split r2) as (w' & Hw' & Hr2).
      destruct (parse_array n (skip_ws r2)) as [[vs' r']|] eqn:Hp; [|discriminate].
      intros [= <- <-]. destruct (IHa _ _ _ Hp) as (t' & Ht' & Heq).
      exists ("" ++ t ++ w ++ String "," (w' ++ t')).
      split; [apply elements_more; auto using elements_ws|].
      rewrite Hr2, Heq. now norm_app.
  - (* parse_object *)
    intros s ps r H. destruct (parse_object_head _ _ _ _ H) as (r0 & ->).
    revert H. rewrite parse_object_step.
    destruct (scanstring r0) as [[key r1]|] eqn:Hk; [|discriminate].
    destruct (scanstring_sound _ _ _ Hk) as (kt & Hkt & ->).
    destruct (skip_ws_split r1) as (w2 & Hw2 & Hr1).
    destruct (skip_ws r1) as [|c r2]; [discriminate|]. rewrite Hr1.
    destruct (Ascii.eqb_spec c ":") as [->|_]; [|discriminate].
    destruct (skip_ws_split r2) as (w3 & Hw3 & Hr2).
    destruct (scan_once n (skip_ws r2)) as [[v r3]|] eqn:Hv; [|discriminate].
    destruct (IHv _ _ _ Hv) as (t & Ht & Heq).
    destruct (skip_ws_split r3) as (w4 & Hw4 & Hr3).
    destruct (skip_ws r3) as [|c2 r4]; [discriminate|].
    destruct (Ascii.eqb_spec c2 "}") as [->|_].
    + intros [= <- <-].
      exists ("" ++ String dquote (kt ++ String dquote (w2 ++ String ":" (w3 ++ t ++ w4)))).
      split; [now apply members_last|].
      rewrite Hr2, Heq, Hr3. now norm_app.
    + destruct (Ascii.eqb_spec c2 ",") as [->|_]; [|discriminate].
      destruct (skip_ws_split r4) as (w' & Hw' & Hr4).
      destruct (parse_object n (skip_ws r4)) as [[ps' r']|] eqn:Hp; [|discriminate].
      intros [= <- <-]. destruct (IHo _ _ _ Hp) as (t' & Ht' & Heq').
      exists ("" ++ String dquote (kt ++ String dquote (w2 ++ String ":"
                (w3 ++ t ++ w4 ++ String "," (w' ++ t'))))).
      split; [apply members_more; auto using members_ws|].
      rewrite Hr2, Heq, Hr3, Hr4, Heq'. now norm_app.
Qed.

Lemma skip_ws_empty s : skip_ws s = "" -> all_ws s = true.
Proof.
  induction s as [|c s IH]; cbn; [reflexivity|].
  destruct (is_ws c); [exact IH|discriminate].
Qed.

(** [json.loads] returns a value only for a well-formed document, and
    then the value the document stands for. *)
Theorem loads_sound text v : loads text = Ok v -> document text v.
Proof.
  unfold loads. destruct (String.prefix bom text); [discriminate|].
  destruct (scan_once _ _) as [[v' r]|] eqn:Hs; [|discriminate].
  destruct (skip_ws r) eqn:Hr; [|discriminate]. intros [= <-].
  destruct (proj1 (decoder_sound _) _ _ _ Hs) as (t & Ht & Heq).
  destruct (skip_ws_split text) as (w & Hw & Htext).
  exists w, t, r. repeat split; auto using skip_ws_empty. now rewrite <- Heq.
Qed.

Theorem loads_correct text v : loads text = Ok v <-> document text v.
Proof. split; [apply loads_sound|apply loads_complete]. Qed.

(** Any other text is refused, and with a [JSONDecodeError]. *)
Lemma loads_malformed text :
  (forall v, ~ document text v) -> loads text = Raise JSONDecodeError.
Proof.
  intros H. destruct (loads text) as [v|e] eqn:Hl.
  - now destruct (H v (loads_sound _ _ Hl)).
  - revert Hl. unfold loads. destruct (String.prefix bom text); [now intros [= <-]|].
    destruct (scan_once _ _) as [[v' r]|]; [|now intros [= <-]].
    destruct (skip_ws r); [discriminate|now intros [= <-]].
Qed.

End DecoderSound.

(** ** Facts about [str.format] *)

Section MarkupFacts.

Import Format.

Lemma scan_literal_spec s lit s1 :
  scan_literal s = (lit, s1) ->
  s = lit ++ s1 /\ has_brace lit = false /\
  (s1 = "" \/ exists c r, s1 = String c r /\ is_brace c = true).
Proof.
  revert lit s1. induction s as [|c s IH]; cbn; intros lit s1.
  - intros [= <- <-]. auto.
  - destruct (is_brace c) eqn:Hc.
    + intros [= <- <-]. repeat split; eauto.
    + destruct (scan_literal s) as [l r']. intros [= <- <-].
      destruct (IH _ _ eq_refl) as (-> & Hl & Hs).
      cbn. rewrite Hc, Hl. auto.
Qed.

Lemma proper_tail_cons c s rest : proper_tail rest s -> proper_tail rest (String c s).
Proof. intros (a & pre & ->). now exists c, (String a pre). Qed.

Lemma proper_tail_here c rest : proper_tail rest (String c rest).
Proof. now exists c, "". Qed.

Lemma proper_tail_app p s rest : proper_tail rest s -> proper_tail rest (p ++ s).
Proof. induction p; cbn; auto using proper_tail_cons. Qed.

Lemma proper_tail_length rest s :
  proper_tail rest s -> String.length rest < String.length s.
Proof. intros (c & pre & ->). cbn. rewrite length_append. lia. Qed.


Lemma scan_field_name_tail b s n t rest :
  scan_field_name b s = Ok (n, t, rest) -> proper_tail rest s.
Proof.
  revert b n t rest. induction s as [|c s IH]; cbn; intros b n t rest; [discriminate|].
  destruct b.
  - destruct (scan_field_name _ s) as [[[n' t'] r']|] eqn:H; cbn; [|discriminate].
    intros [= <- <- <-]. eauto using proper_tail_cons.
  - destruct (c =? "{")%char; [discriminate|].
    destruct ((c =? "}")%char || (c =? ":")%char || (c =? "!")%char).
    + intros [= <- <- <-]. apply proper_tail_here.
    + destruct (scan_field_name _ s) as [[[n' t'] r']|] eqn:H; cbn; [|discriminate].
      intros [= <- <- <-]. eauto using proper_tail_cons.
Qed.

Lemma scan_format_spec_tail d s sp rest :
  scan_format_spec d s = Ok (sp, rest) -> proper_tail rest s.
Proof.
  revert d sp rest. induction s as [|c s IH]; cbn; intros d sp rest; [discriminate|].
  destruct (c =? "}")%char.
  - destruct d.
    + intros [= <- <-]. apply proper_tail_here.
    + destruct (scan_format_spec d s) as [[sp' r']|] eqn:H; cbn; [|discriminate].
      intros [= <- <-]. eauto using proper_tail_cons.
  - destruct (scan_format_spec _ s) as [[sp' r']|] eqn:H; cbn; [|discriminate].
    intros [= <- <-]. eauto using proper_tail_cons.
Qed.

Lemma parse_field_tail s f rest :
  parse_field s = Ok (f, rest) -> proper_tail rest s.
Proof.
  unfold parse_field.
  destruct (scan_field_name false s) as [[[n t] r]|] eqn:Hn; cbn; [|discriminate].
  apply scan_field_name_tail in Hn. destruct Hn as (c0 & pre & ->).
  destruct (t =? "}")%char.
  { intros [= <- <-]. now exists c0, pre. }
  assert (Hspec : forall r0 sp, scan_format_spec 0 r0 = Ok (sp, rest) ->
                  proper_tail r0 r \/ r0 = r ->
                  proper_tail rest (String c0 pre ++ r)).
  { intros r0 sp H%scan_format_spec_tail [(c1 & p1 & ->)| ->].
    - apply (proper_tail_app (String c0 pre)), (proper_tail_app (String c1 p1)), H.
    - apply (proper_tail_app (String c0 pre)), H. }
  destruct (t =? ":")%char.
  { destruct (scan_format_spec 0 r) as [[sp r']|] eqn:Hs; cbn; [|discriminate].
    intros [= <- <-]. eauto. }
  destruct r as [|conv [|c r2]]; try discriminate.
  destruct (c =? "}")%char.
  { intros [= <- <-].
    apply (proper_tail_app (String c0 pre)), proper_tail_cons, proper_tail_here. }
  destruct (c =? ":")%char; [|discriminate].
  destruct (scan_format_spec 0 r2) as [[sp r']|] eqn:Hs; cbn; [|discriminate].
  intros [= <- <-]. eapply Hspec; [exact Hs|]. left. now exists conv, (String c "").
Qed.

(** One step of the iterator, on a text without doubled braces: the
    literal run has no brace in it, and the rest is a proper tail. *)
Lemma MarkupIterator_next_tail c0 s0 lit fld rest :
  MarkupIterator_next (String c0 s0) = Ok (lit, fld, rest) ->
  proper_tail rest (String c0 s0).
Proof.
  unfold MarkupIterator_next.
  destruct (scan_literal (String c0 s0)) as [lit0 s1] eqn:Hl.
  apply scan_literal_spec in Hl. destruct Hl as (Hs & _ & _). rewrite Hs.
  destruct s1 as [|c [|c' r']]; try discriminate.
  - intros [= <- <- <-]. rewrite append_nil_r in *. rewrite <- Hs.
    exists c0, s0. now rewrite append_nil_r.
  - destruct (c' =? c)%char.
    + intros [= <- <- <-].
      apply proper_tail_app, proper_tail_cons, proper_tail_here.
    + destruct (c =? "}")%char; [discriminate|].
      destruct (parse_field (String c' r')) as [[f r]|] eqn:Hf; cbn; [|discriminate].
      intros [= <- <- <-].
      apply proper_tail_app, proper_tail_cons, (parse_field_tail _ _ _ Hf).
Qed.


Lemma split_first_length s f r :
  split_first s = (f, r) -> String.length r <= String.length s.
Proof.
  revert f r. induction s as [|c s IH]; cbn; intros f r.
  - now intros [= <- <-].
  - destruct ((c =? ".")%char || (c =? "[")%char); [now intros [= <- <-]|].
    destruct (split_first s) as [f' r']. intros [= <- <-].
    specialize (IH _ _ eq_refl). lia.
Qed.

Lemma split_bracket_length s k r :
  split_bracket s = Some (k, r) -> String.length r < String.length s.
Proof.
  revert k r. induction s as [|c s IH]; cbn; intros k r; [discriminate|].
  destruct (c =? "]")%char; [intros [= <- <-]; lia|].
  destruct (split_bracket s) as [[k' r']|]; [|discriminate].
  intros [= <- <-]. specialize (IH _ _ eq_refl). lia.
Qed.

(** The fuel of [apply_accessors] is never what stops it. *)
Lemma apply_accessors_fuel n m obj rest :
  String.length rest <= n -> String.length rest <= m ->
  apply_accessors n obj rest = apply_accessors m obj rest.
Proof.
  revert m obj rest. induction n as [|n IH]; intros m obj rest Hn Hm.
  - destruct rest; [now destruct m|cbn in Hn; lia].
  - destruct rest as [|c r]; [now destruct m|].
    destruct m as [|m]; [cbn in Hm; lia|].
    cbn [apply_accessors]. cbn [String.length] in Hn, Hm.
    destruct (c =? ".")%char.
    + destruct (split_first r) as [name rest'] eqn:Hs.
      apply split_first_length in Hs.
      destruct (name =? ""); [reflexivity|].
      destruct (obj_getattr obj name); [|reflexivity].
      cbn [bind]. apply IH; lia.
    + destruct (c =? "[")%char; [|reflexivity].
      destruct (split_bracket r) as [[key rest']|] eqn:Hs; [|reflexivity].
      apply split_bracket_length in Hs.
      destruct (too_many_digits key || (key =? "")); [reflexivity|].
      destruct (obj_getitem obj key); [|reflexivity].
      cbn [bind]. apply IH; lia.
Qed.

End MarkupFacts.

Section BuildFacts.

Import Format.

(** The fuel of [do_markup] is never what stops it. *)
Lemma do_markup_fuel kw expand n m s :
  String.length s <= n -> String.length s <= m ->
  do_markup kw expand n s = do_markup kw expand m s.
Proof.
  revert m s. induction n as [|n IH]; intros m s Hn Hm.
  - destruct s; [now destruct m|cbn in Hn; lia].
  - destruct s as [|c s]; [now destruct m|].
    destruct m as [|m]; [cbn in Hm; lia|].
    cbn [do_markup].
    destruct (MarkupIterator_next (String c s)) as [[[lit fld] rest]|] eqn:Hnext;
      [|reflexivity].
    apply MarkupIterator_next_tail, proper_tail_length in Hnext.
    cbn in Hn, Hm, Hnext. cbn [bind].
    rewrite (IH m rest) by lia. reflexivity.
Qed.

Lemma fields_of_fuel n m s :
  String.length s <= n -> String.length s <= m -> fields_of n s = fields_of m s.
Proof.
  revert m s. induction n as [|n IH]; intros m s Hn Hm.
  - destruct s; [now destruct m|cbn in Hn; lia].
  - destruct s as [|c s]; [now destruct m|].
    destruct m as [|m]; [cbn in Hm; lia|].
    cbn [fields_of].
    destruct (MarkupIterator_next (String c s)) as [[[lit fld] rest]|] eqn:Hnext;
      [|reflexivity].
    apply MarkupIterator_next_tail, proper_tail_length in Hnext.
    cbn in Hn, Hm, Hnext. rewrite (IH m rest) by lia. reflexivity.
Qed.



Section Level.

Variable kw : list (string * pyobj).
Variable expand : string -> res string.




End Level.

(** When the first replacement field of a template names a keyword that
    was not supplied, the exception is the [KeyError] of that name. *)
Lemma first_field_missing_is_KeyError kw template lit f rest :
  MarkupIterator_next template = Ok (lit, Some f, rest) ->
  all_digits (first_name f) = false ->
  dict_get kw (first_name f) = None ->
  str_format kw template = Raise (KeyError (first_name f)).
Proof.
  intros Hnext Hdigits Hget. unfold str_format. cbn [build_string].
  destruct template as [|c s]; [discriminate|]. cbn [String.length do_markup].
  rewrite Hnext. cbn [bind]. unfold output_markup, get_field_object.
  unfold first_name in *. destruct (split_first (field_name f)) as [first tail].
  cbn [fst] in *. unfold get_value, too_many_digits.
  now rewrite Hdigits, andb_false_r, Hget.
Qed.

Lemma build_string_0_raises kw s : raises (build_string kw 0 s).
Proof. now exists ValueError. Qed.


(** Two argument sets that agree on the names a template refers to
    render it alike. *)
Lemma output_markup_agree kw1 kw2 e1 e2 f :
  dict_get kw1 (first_name f) = dict_get kw2 (first_name f) ->
  (has_lbrace (format_spec f) = true -> e1 (format_spec f) = e2 (format_spec f)) ->
  output_markup kw1 e1 f = output_markup kw2 e2 f.
Proof.
  unfold output_markup, get_field_object, first_name, get_value.
  destruct (split_first (field_name f)) as [first rest]. cbn [fst].
  intros -> He. destruct (has_lbrace (format_spec f)); [|reflexivity].
  now rewrite He.
Qed.

Lemma do_markup_agree kw1 kw2 e1 e2 fuel s :
  (forall f, In f (fields_of fuel s) ->
             output_markup kw1 e1 f = output_markup kw2 e2 f) ->
  do_markup kw1 e1 fuel s = do_markup kw2 e2 fuel s.
Proof.
  revert s. induction fuel as [|n IH]; intros s H.
  - now destruct s.
  - destruct s as [|c s]; [easy|]. cbn [fields_of] in H. cbn [do_markup].
    destruct (MarkupIterator_next (String c s)) as [[[lit fld] rest]|e] eqn:Hnext;
      [|reflexivity].
    cbn [bind]. rewrite (IH rest) by (intros f Hf; apply H, in_or_app; now right).
    destruct fld as [f0|]; [|reflexivity].
    rewrite (H f0) by (apply in_or_app; left; now left). reflexivity.
Qed.

Lemma str_format_agree kw1 kw2 template :
  (forall k, In k (referenced_names template) -> dict_get kw1 k = dict_get kw2 k) ->
  str_format kw1 template = str_format kw2 template.
Proof.
  unfold referenced_names, template_fields, str_format. cbn [build_string].
  intros H. apply do_markup_agree. intros f Hf.
  assert (Hnames : forall k, In k (first_name f :: map first_name (nested_fields f)) ->
                             dict_get kw1 k = dict_get kw2 k).
  { intros k Hk. apply H, in_flat_map. eauto. }
  apply output_markup_agree; [apply Hnames; now left|].
  intros Hb. apply do_markup_agree. intros f' Hf'.
  apply output_markup_agree; [|reflexivity].
  apply Hnames. right. apply in_map. unfold nested_fields. now rewrite Hb.
Qed.





End BuildFacts.

(** ** The steps of [generate_dataset] and of [_parse_output] *)

Section GenerateDataset.

Context {RT : Runtime} {Self : Type} {G : _BaseLLMGenerator.Generator Self}.
Import _BaseLLMGenerator.

(** [generate_dataset], step by step. *)
Lemma generate_dataset_run model num_samples column_types (w : World Self) :
  generate_dataset model num_samples column_types w =
  match _format_messages (this w) model num_samples column_types with
  | Raise e => (Raise e, w)
  | Ok msgs =>
      let w' := {| this := this w;
                   calls := (calls w ++ [issued_call (base (this w)) msgs])%list |} in
      match complete (llm_client (base (this w))) (calls w)
              (issued_call (base (this w)) msgs) with
      | Raise e => (Raise e, w')
      | Ok out =>
          match _parse_output (base (this w)) out with
          | Raise e => (Raise e, w')
          | Ok generated =>
              match pd_DataFrame generated with
              | Raise e => (Raise e, w')
              | Ok frame =>
                  (Ok {| Dataset.df := frame;
                         Dataset.name :=
                           "Synthetic Test Dataset for " ++ BaseModel.name model;
                         Dataset.validation := false;
                         Dataset.column_types := column_types |}, w')
              end
          end
      end
  end.
Proof.
  unfold generate_dataset, mbind, self, lift, llm_client_complete, ret,
    issued_call, _make_dataset_name.
  destruct (_format_messages (this w) model num_samples column_types) as [msgs|e];
    [|reflexivity].
  cbn.
  destruct (complete _ _ _) as [out|e]; [|reflexivity].
  destruct (_parse_output _ out) as [generated|e]; [|reflexivity].
  destruct (pd_DataFrame generated); reflexivity.
Qed.

(** The calls made by one invocation: none when the messages cannot be
    built, one otherwise. *)
Lemma generate_dataset_calls model num_samples column_types (w : World Self) :
  calls (snd (generate_dataset model num_samples column_types w)) =
  match _format_messages (this w) model num_samples column_types with
  | Ok msgs => (calls w ++ [issued_call (base (this w)) msgs])%list
  | Raise _ => calls w
  end.
Proof.
  rewrite generate_dataset_run.
  destruct (_format_messages _ _ _ _) as [msgs|e]; [|reflexivity].
  cbn. destruct (complete _ _ _) as [out|e]; [|reflexivity].
  destruct (_parse_output _ out) as [generated|e]; [|reflexivity].
  destruct (pd_DataFrame generated); reflexivity.
Qed.

Lemma generate_dataset_this model num_samples column_types (w : World Self) :
  this (snd (generate_dataset model num_samples column_types w)) = this w.
Proof.
  rewrite generate_dataset_run.
  destruct (_format_messages _ _ _ _) as [msgs|e]; [|reflexivity].
  cbn. destruct (complete _ _ _) as [out|e]; [|reflexivity].
  destruct (_parse_output _ out) as [generated|e]; [|reflexivity].
  destruct (pd_DataFrame generated); reflexivity.
Qed.

(** C3. Whenever the pipeline gets through (messages built, completion
    returned, output parsed to [generated], data frame [frame] built from
    it), the dataset is constructed from exactly that frame, with the name
    "Synthetic Test Dataset for " followed by the model's name, validation
    switched off, and the caller's column types as given.  The model name
    is any string, empty or not. *)
Theorem generate_dataset_assembles
  model num_samples column_types (w : World Self) msgs out generated frame :
  _format_messages (this w) model num_samples column_types = Ok msgs ->
  complete (llm_client (base (this w))) (calls w)
    (issued_call (base (this w)) msgs) = Ok out ->
  _parse_output (base (this w)) out = Ok generated ->
  pd_DataFrame generated = Ok frame ->
  fst (generate_dataset model num_samples column_types w) =
  Ok {| Dataset.df := frame;
        Dataset.name := "Synthetic Test Dataset for " ++ BaseModel.name model;
        Dataset.validation := false;
        Dataset.column_types := column_types |}.
Proof.
  intros Hm Hc Hp Hf. rewrite generate_dataset_run, Hm. cbn.
  rewrite Hc, Hp, Hf. reflexivity.
Qed.

(** Conversely, a dataset that comes back was assembled that way. *)
Lemma generate_dataset_inv model num_samples column_types (w : World Self) ds :
  fst (generate_dataset model num_samples column_types w) = Ok ds ->
  exists msgs out generated,
    _format_messages (this w) model num_samples column_types = Ok msgs /\
    complete (llm_client (base (this w))) (calls w)
      (issued_call (base (this w)) msgs) = Ok out /\
    _parse_output (base (this w)) out = Ok generated /\
    pd_DataFrame generated = Ok (Dataset.df ds) /\
    Dataset.name ds = "Synthetic Test Dataset for " ++ BaseModel.name model /\
    Dataset.validation ds = false /\
    Dataset.column_types ds = column_types.
Proof.
  rewrite generate_dataset_run.
  destruct (_format_messages _ _ _ _) as [msgs|e] eqn:Hm; [|discriminate].
  cbn. destruct (complete _ _ _) as [out|e] eqn:Hc; [|discriminate].
  destruct (_parse_output _ out) as [generated|e] eqn:Hp; [|discriminate].
  destruct (pd_DataFrame generated) as [frame|e] eqn:Hf; [|discriminate].
  cbn. intros [= <-]. exists msgs, out, generated. cbn. auto 10.
Qed.

(** C6, as the code has it.  One invocation leaves the call log extended
    by exactly one call when its messages are built, and untouched when
    building them raises.  The one call carries the messages, the
    temperature and the seed stored in the instance, the name of the
    instance's class as [caller_id], and the format "json". *)
Theorem generate_dataset_issues_one_call
  model num_samples column_types (w : World Self) :
  calls (snd (generate_dataset model num_samples column_types w)) =
  match _format_messages (this w) model num_samples column_types with
  | Ok msgs =>
      (calls w ++
       [{| messages := msgs;
           temperature := llm_temperature (base (this w));
           caller_id := __name__ (__class__ (base (this w)));
           seed := llm_seed (base (this w));
           format := "json" |}])%list
  | Raise _ => calls w
  end.
Proof. exact (generate_dataset_calls model num_samples column_types w). Qed.

End GenerateDataset.

Section ParseOutput.

Import _BaseLLMGenerator.

Variable self : _BaseLLMGenerator.t.
Variable raw_output : ChatMessage.

(** Text that does not decode is reported as a generation failure. *)
Lemma parse_output_decode_error :
  Json.loads (content raw_output) = Raise JSONDecodeError ->
  _parse_output self raw_output =
  Raise (LLMGenerationError "Could not parse generated data" JSONDecodeError).
Proof. unfold _parse_output. intros ->. reflexivity. Qed.


(** Any other JSON value cannot be subscripted by the key, and that
    [TypeError] is not among the exceptions the method handles. *)
Lemma parse_output_not_an_object v key :
  Json.loads (content raw_output) = Ok v ->
  (forall d, v <> PDict d) ->
  truthy_key (_output_key (__class__ self)) = Some key ->
  _parse_output self raw_output = Raise TypeError.
Proof.
  unfold _parse_output, getitem. intros -> Hv ->. cbn.
  destruct v; try reflexivity. now destruct (Hv d).
Qed.


End ParseOutput.

Section Construction.

Context {RT : Runtime}.
Import _BaseLLMGenerator LLMBasedDataGenerator.

Variable cls : GeneratorClass.
Variable template : string.
Variable prefix : option (list ChatMessage).
Variable tags : option (list string).
Variable temp : option spec_float.
Variable client : option LLMClient.
Variable seed_arg : option Z.

Lemma init_prefix_messages :
  prefix_messages
    (LLMBasedDataGenerator.__init__ cls template prefix tags temp client seed_arg) =
  match prefix with Some l => l | None => [] end.
Proof. destruct prefix as [[|m ms]|]; reflexivity. Qed.

Lemma init_languages_nonempty :
  languages (super
    (LLMBasedDataGenerator.__init__ cls template prefix tags temp client seed_arg))
  <> [].
Proof. destruct tags as [[|l ls]|]; discriminate. Qed.

Lemma base_init_languages_nonempty :
  languages (_BaseLLMGenerator.__init__ cls tags temp client seed_arg) <> [].
Proof. destruct tags as [[|l ls]|]; discriminate. Qed.

End Construction.

(** ** The claims about construction, messages and calls *)

Section Claims.

Context {RT : Runtime}.
Import _BaseLLMGenerator LLMBasedDataGenerator.


(** The message sequence exists exactly when the template renders. *)
Lemma format_messages_inv (g : LLMBasedDataGenerator.t) model num_samples
  column_types msgs :
  LLMBasedDataGenerator._format_messages g model num_samples column_types = Ok msgs ->
  exists instruction,
    Format.str_format (format_kwargs g model num_samples) (prompt g) = Ok instruction /\
    msgs = (prefix_messages g ++ [user_message instruction])%list.
Proof.
  unfold LLMBasedDataGenerator._format_messages.
  destruct (Format.str_format _ _) as [instruction|e]; [|discriminate].
  cbn. intros [= <-]. now exists instruction.
Qed.

Lemma format_messages_raise (g : LLMBasedDataGenerator.t) model num_samples
  column_types e :
  Format.str_format (format_kwargs g model num_samples) (prompt g) = Raise e ->
  LLMBasedDataGenerator._format_messages g model num_samples column_types = Raise e.
Proof. unfold LLMBasedDataGenerator._format_messages. now intros ->. Qed.

(** C7. Construction never leaves the language list empty: with no
    languages, or an empty list, it is ["en"], and a non-empty list is
    kept as it is, in the base class and in the template-driven one.  A
    temperature left out becomes the class default, 0.5; a seed left out
    becomes 1729.  An invocation of [generate_dataset] hands the instance
    on unchanged. *)
Theorem construction_defaults
  cls template prefix tags temp client seed_arg l ls model num_samples
  column_types log :
  let make := LLMBasedDataGenerator.__init__ cls template prefix in
  languages (super (make tags temp client seed_arg)) <> [] /\
  languages (super (make None temp client seed_arg)) = ["en"] /\
  languages (super (make (Some []) temp client seed_arg)) = ["en"] /\
  languages (super (make (Some (l :: ls)) temp client seed_arg)) = l :: ls /\
  languages (_BaseLLMGenerator.__init__ cls tags temp client seed_arg) <> [] /\
  languages (_BaseLLMGenerator.__init__ cls None temp client seed_arg) = ["en"] /\
  languages (_BaseLLMGenerator.__init__ cls (Some []) temp client seed_arg) = ["en"] /\
  languages (_BaseLLMGenerator.__init__ cls (Some (l :: ls)) temp client seed_arg)
    = l :: ls /\
  llm_temperature (super (make tags None client seed_arg)) = _default_temperature cls /\
  _default_temperature LLMBasedDataGenerator.class = float_0_5 /\
  _default_temperature _BaseLLMGenerator.class = float_0_5 /\
  llm_seed (super (make tags temp client None)) = 1729%Z /\
  this (snd (generate_dataset model num_samples column_types
               {| this := make tags temp client seed_arg; calls := log |}))
    = make tags temp client seed_arg.
Proof.
  intros make. repeat split; try reflexivity.
  - apply init_languages_nonempty.
  - apply base_init_languages_nonempty.
  - apply generate_dataset_this.
Qed.

(** C9. A generator built with temperature 0.0 stores 0.0, not the
    default 0.5, and the completion call of every invocation carries
    0.0; only a temperature left out becomes the class default. *)
Theorem zero_temperature_is_kept
  cls template prefix tags client seed_arg model num_samples column_types log :
  let zero := S754_zero false in
  let g := LLMBasedDataGenerator.__init__ cls template prefix tags (Some zero)
             client seed_arg in
  llm_temperature (super g) = zero /\
  zero <> float_0_5 /\
  calls (snd (generate_dataset model num_samples column_types
                {| this := g; calls := log |})) =
    match LLMBasedDataGenerator._format_messages g model num_samples column_types with
    | Ok msgs =>
        (log ++ [{| messages := msgs;
                    temperature := zero;
                    caller_id := __name__ cls;
                    seed := llm_seed (super g);
                    format := "json" |}])%list
    | Raise _ => log
    end /\
  llm_temperature
    (super (LLMBasedDataGenerator.__init__ cls template prefix tags None client
              seed_arg)) = _default_temperature cls /\
  _default_temperature LLMBasedDataGenerator.class = float_0_5.
Proof.
  intros zero g. repeat split; try reflexivity; try discriminate.
  rewrite generate_dataset_calls. reflexivity.
Qed.

(** Every temperature that is supplied is the one stored. *)
Lemma supplied_temperature_is_kept cls template prefix tags t client seed_arg :
  llm_temperature
    (super (LLMBasedDataGenerator.__init__ cls template prefix tags (Some t) client
              seed_arg)) = t.
Proof. reflexivity. Qed.

End Claims.

Section Scenarios.

Import _BaseLLMGenerator LLMBasedDataGenerator Example.
#[local] Existing Instance Example.runtime.

(** The end-to-end scenario: three records come back as three rows. *)
Example loan_scenario :
  fst (generate_dataset loan_model 3 None
         (fresh (generator_for loan_prompt ["en"] loan_answer))) =
  Ok {| Dataset.df := loan_records;
        Dataset.name := "Synthetic Test Dataset for Loan Approval";
        Dataset.validation := false;
        Dataset.column_types := None |}.
Proof. vm_compute. reflexivity. Qed.

Example wrong_key_scenario :
  fst (generate_dataset loan_model 3 None
         (fresh (generator_for loan_prompt ["en"] (json_text "{'data': []}")))) =
  Raise (LLMGenerationError "Could not parse generated data" (KeyError "inputs")).
Proof. vm_compute. reflexivity. Qed.

Example not_json_scenario :
  fst (generate_dataset loan_model 3 None
         (fresh (generator_for loan_prompt ["en"] "not json"))) =
  Raise (LLMGenerationError "Could not parse generated data" JSONDecodeError).
Proof. vm_compute. reflexivity. Qed.

Lemma generate_dataset_assembles_witness :
  fst (generate_dataset loan_model 3 (Some [("income", "numeric")])
         (fresh (generator_for loan_prompt ["en"] loan_answer))) =
  Ok {| Dataset.df := loan_records;
        Dataset.name := "Synthetic Test Dataset for Loan Approval";
        Dataset.validation := false;
        Dataset.column_types := Some [("income", "numeric")] |}.
Proof.
  apply (generate_dataset_assembles (RT := runtime) loan_model 3 (Some [("income", "numeric")])
           (fresh (generator_for loan_prompt ["en"] loan_answer))
           [user_message "Generate 3 inputs for Loan Approval: Decides on loans."]
           {| role := "assistant"; content := loan_answer |}
           (PList loan_records) loan_records);
    vm_compute; reflexivity.
Defined.


(** C1, where the code falls short.  A completion that is well-formed
    JSON but not an object, here a bare array of records, has no
    "inputs" key; subscripting it raises [TypeError], which
    [_parse_output] does not handle, so [generate_dataset] lets the
    [TypeError] out instead of a generation failure. *)
Theorem bare_array_escapes_as_TypeError :
  let answer := json_text "[{'income': 50000, 'age': 30}]" in
  let g := generator_for loan_prompt ["en"] answer in
  Json.loads answer = Ok (PList [PDict [("income", PInt 50000); ("age", PInt 30)]]) /\
  _parse_output (super g) {| role := "assistant"; content := answer |} =
    Raise TypeError /\
  fst (generate_dataset loan_model 1 None (fresh g)) = Raise TypeError /\
  is_generation_failure TypeError = false.
Proof. vm_compute. repeat split; reflexivity. Qed.

(** C6 does not hold of every invocation: with the module's own default
    prompt as template, whose placeholders are not the ones the generator
    supplies, the invocation raises while building its messages and the
    client is never called. *)
Lemma unbuilt_request_issues_no_call :
  let w := fresh (generator_for DEFAULT_GENERATE_INPUTS_PROMPT ["en"] loan_answer) in
  fst (generate_dataset loan_model 3 None w) = Raise (KeyError "model_name") /\
  calls (snd (generate_dataset loan_model 3 None w)) = [] /\
  ~ (exists call, calls (snd (generate_dataset loan_model 3 None w)) =
                  (calls w ++ [call])%list).
Proof.
  vm_compute. repeat split; try reflexivity.
  intros [call H]. discriminate H.
Qed.

End Scenarios.

(** ** The claims about templates *)

Section TemplateClaims.

Context {RT : Runtime}.
Import _BaseLLMGenerator LLMBasedDataGenerator.

Lemma format_kwargs_missing (g : LLMBasedDataGenerator.t) model num_samples k :
  ~ In k ["model"; "num_samples"; "languages"] ->
  dict_get (format_kwargs g model num_samples) k = None.
Proof.
  intros H. unfold format_kwargs. cbn [dict_get].
  destruct (String.eqb_spec k "model") as [->|_]; [cbn in H; tauto|].
  destruct (String.eqb_spec k "num_samples") as [->|_]; [cbn in H; tauto|].
  destruct (String.eqb_spec k "languages") as [->|_]; [cbn in H; tauto|].
  reflexivity.
Qed.




End TemplateClaims.

Section TemplateScenarios.

Import _BaseLLMGenerator LLMBasedDataGenerator Example.
#[local] Existing Instance Example.runtime.






End TemplateScenarios.

(** ** The claims about parsing *)

Section ParseOutputClaims.

Import _BaseLLMGenerator Json JsonText.






(** All or nothing: whatever [_parse_output] returns is the whole value
    under the output key of a well-formed document. *)
Lemma parse_output_inv (self : _BaseLLMGenerator.t) (raw_output : ChatMessage) key v :
  truthy_key (_output_key (__class__ self)) = Some key ->
  _parse_output self raw_output = Ok v ->
  exists d, document (content raw_output) (PDict d) /\ dict_get d key = Some v.
Proof.
  unfold _parse_output. intros ->.
  destruct (loads (content raw_output)) as [data|e] eqn:Hl; cbn.
  - apply loads_sound in Hl. unfold getitem.
    destruct data; try discriminate.
    destruct (dict_get d key) as [v'|] eqn:Hget; [|discriminate].
    intros [= <-]. eauto.
  - destruct e; discriminate.
Qed.

(** A well-formed document that stands for anything but an object is not
    a generation failure for [_parse_output]: the [TypeError] of the
    subscript comes out as it is. *)
Lemma non_object_document_raises_TypeError
  (self : _BaseLLMGenerator.t) (raw_output : ChatMessage) key v :
  truthy_key (_output_key (__class__ self)) = Some key ->
  document (content raw_output) v ->
  (forall d, v <> PDict d) ->
  _parse_output self raw_output = Raise TypeError.
Proof.
  intros Hkey Hdoc Hv.
  apply (parse_output_not_an_object self raw_output v key); auto.
  now apply loads_complete.
Qed.


End ParseOutputClaims.

Section ParseOutputScenarios.

Import _BaseLLMGenerator LLMBasedDataGenerator Json JsonText Example.
#[local] Existing Instance Example.runtime.



End ParseOutputScenarios.

(** ** Further properties of [generate_dataset] *)

Section Pipeline.

Context {RT : Runtime} {Self : Type} {G : _BaseLLMGenerator.Generator Self}.
Import _BaseLLMGenerator.

(** X1. A failure of the client is not reinterpreted: when the messages
    are built and the call to [complete] raises [e], [generate_dataset]
    raises that same [e], whatever it is, with the one call on the log and
    the instance as it was. *)
Theorem client_failure_passes_through
  model num_samples column_types (w : World Self) msgs e :
  _format_messages (this w) model num_samples column_types = Ok msgs ->
  complete (llm_client (base (this w))) (calls w)
    (issued_call (base (this w)) msgs) = Raise e ->
  generate_dataset model num_samples column_types w =
  (Raise e,
   {| this := this w;
      calls := (calls w ++ [issued_call (base (this w)) msgs])%list |}).
Proof.
  intros Hm Hc. rewrite generate_dataset_run, Hm. cbn. now rewrite Hc.
Qed.


End Pipeline.

(** ** Further properties of [_parse_output] *)

Section ParseOutcomes.

Import _BaseLLMGenerator Json JsonText.

(** [json.loads] fails in one way only. *)
Lemma loads_raises text e : loads text = Raise e -> e = JSONDecodeError.
Proof.
  unfold loads. destruct (String.prefix bom text); [now intros [= <-]|].
  destruct (scan_once _ _) as [[v r]|]; [|now intros [= <-]].
  destruct (skip_ws r); [discriminate|now intros [= <-]].
Qed.

Lemma loads_ok_or_malformed text :
  (exists v, loads text = Ok v /\ document text v) \/
  (loads text = Raise JSONDecodeError /\ forall v, ~ document text v).
Proof.
  destruct (loads text) as [v|e] eqn:Hl.
  - left. exists v. split; [reflexivity|now apply loads_sound].
  - right. rewrite (loads_raises _ _ Hl). split; [reflexivity|].
    intros v Hd. apply loads_complete in Hd. congruence.
Qed.


Variable self : _BaseLLMGenerator.t.
Variable raw_output : ChatMessage.




Section WithKey.

Variable key : string.
Hypothesis output_key : truthy_key (_output_key (__class__ self)) = Some key.




End WithKey.


End ParseOutcomes.

(** ** The completion as a text: what [_parse_output] takes and refuses *)

Section CompletionText.

Import _BaseLLMGenerator Json JsonText.


Lemma value_first t v : value t v -> head_is starts_value t = true.
Proof.
  destruct 1 as [| | | | | |t v Hn| | | | |]; try reflexivity.
  destruct (number_head t v Hn) as (c & t' & -> & [Hc|Hc]); cbn [head_is].
  - apply Ascii.eqb_eq in Hc. now subst c.
  - unfold starts_value. rewrite Hc. now rewrite !orb_true_r.
Qed.






(** X10. A completion whose first character after leading whitespace
    cannot begin a JSON value (an empty or blank completion, a sentence, a
    Markdown fence, a Python literal such as [True] or [None], a
    byte-order mark) is a generation failure caused by a
    [JSONDecodeError]. *)
Theorem completion_must_begin_with_a_value
  (self : _BaseLLMGenerator.t) (raw_output : ChatMessage) :
  head_is starts_value (skip_ws (content raw_output)) = false ->
  _parse_output self raw_output =
  Raise (LLMGenerationError "Could not parse generated data" JSONDecodeError).
Proof.
  intros H. apply parse_output_decode_error, loads_malformed.
  intros v (w1 & t & w2 & Hw1 & Hv & _ & Heq).
  rewrite Heq, (skip_ws_value _ _ _ _ Hw1 Hv) in H.
  destruct (value_head t v Hv) as (c & t' & -> & _).
  apply value_first in Hv. cbn in Hv, H. congruence.
Qed.

(** Whitespace around a document *)

Lemma last_is_app_true p a b : last_is p b = true -> last_is p (a ++ b) = true.
Proof.
  intros Hb. induction a as [|c a IH]; [exact Hb|].
  cbn [append last_is]. destruct (a ++ b) eqn:Hab; [|exact IH].
  destruct a, b; discriminate.
Qed.

Lemma last_is_digits d :
  d <> "" -> all_digits d = true -> last_is not_ws d = true.
Proof.
  induction d as [|c d IH]; [congruence|]. intros _ [Hc Hd]%andb_true_iff.
  destruct d as [|c' d'].
  - cbn. unfold not_ws. now rewrite (digit_not_ws c Hc).
  - cbn [last_is]. apply IH; [discriminate|exact Hd].
Qed.

Lemma number_last t v : number t v -> last_is not_ws t = true.
Proof.
  intros [neg ip frac et exp Hip Hfrac Hexp].
  apply last_is_app_true.
  assert (Hi : last_is not_ws ip = true).
  { destruct Hip as [->|(c & d & -> & Hc & _ & Hd)]; [reflexivity|].
    apply last_is_digits; [discriminate|]. cbn. now rewrite Hc. }
  destruct Hexp as [|e sign sneg d _ _ Hne Hd].
  - rewrite append_nil_r. destruct frac as [|f frac'].
    + cbn [String.eqb]. now rewrite append_nil_r.
    + apply last_is_app_true. cbn [String.eqb].
      change (last_is not_ws (String "." (String f frac')))
        with (last_is not_ws (String f frac')).
      apply last_is_digits; [discriminate|exact Hfrac].
  - do 2 apply last_is_app_true.
    change (String e (sign ++ d)) with ((String e sign) ++ d).
    apply last_is_app_true. now apply last_is_digits.
Qed.

Lemma value_last t v : value t v -> last_is not_ws t = true.
Proof.
  destruct 1 as [| | | | | |t v Hn|t s Hc|w Hw|t vs Hel|w Hw|t ps Hm];
    try reflexivity;
    try (match goal with
         | |- last_is _ (String ?q (?x ++ ?y)) = true =>
             change (String q (x ++ y)) with ((String q x) ++ y);
             apply last_is_app_true; reflexivity
         end).
  now apply (number_last t v).
Qed.

Lemma all_ws_app_inv a b :
  all_ws (a ++ b) = true -> all_ws a = true /\ all_ws b = true.
Proof.
  induction a as [|c a IH]; cbn; [auto|].
  intros [Hc Hab]%andb_true_iff. rewrite Hc. now apply IH.
Qed.

Lemma all_ws_last w : all_ws w = true -> last_is not_ws w = false.
Proof.
  induction w as [|c w IH]; [reflexivity|]. intros [Hc Hw]%andb_true_iff.
  cbn [last_is]. destruct w; [|now apply IH]. unfold not_ws. now rewrite Hc.
Qed.

Lemma trailing_ws_split x w2 :
  all_ws w2 = true ->
  forall t b, all_ws b = true -> last_is not_ws t = true ->
  x ++ w2 = t ++ b -> exists b', x = t ++ b' /\ b = b' ++ w2.
Proof.
  intros Hw2. induction x as [|c x IH]; intros t b Hb Ht Heq.
  - cbn in Heq. subst w2. apply all_ws_app_inv in Hw2 as [Hw _].
    apply all_ws_last in Hw. congruence.
  - destruct t as [|c' t]; [discriminate|].
    cbn [append] in Heq. injection Heq as <- Heq.
    destruct t as [|c'' t].
    + exists x. cbn in Heq |- *. auto.
    + destruct (IH (String c'' t) b Hb Ht Heq) as (b' & -> & ->).
      exists b'. auto.
Qed.

Lemma document_ws w1 text w2 v :
  all_ws w1 = true -> all_ws w2 = true ->
  document (w1 ++ text ++ w2) v <-> document text v.
Proof.
  intros Hw1 Hw2. split.
  - intros (a & t & b & Ha & Hv & Hb & Heq).
    assert (Hskip : skip_ws (text ++ w2) = t ++ b).
    { rewrite <- (skip_ws_all_ws w1 _ Hw1), Heq. now apply (skip_ws_value a t v b). }
    destruct (skip_ws_split (text ++ w2)) as (w & Hw & Hsplit).
    rewrite Hskip in Hsplit.
    destruct (trailing_ws_split text w2 Hw2 (w ++ t) b Hb) as (b' & -> & ->).
    + apply last_is_app_true. now apply (value_last t v).
    + now rewrite append_assoc.
    + apply all_ws_app_inv in Hb as [Hb' _].
      exists w, t, b'. rewrite append_assoc. auto.
  - intros (a & t & b & Ha & Hv & Hb & ->).
    exists (w1 ++ a), t, (b ++ w2). rewrite !append_assoc.
    auto using all_ws_app.
Qed.

Lemma loads_same_documents a b :
  (forall v, document a v <-> document b v) -> loads a = loads b.
Proof.
  intros H.
  destruct (loads_ok_or_malformed a) as [(v & -> & Hd)|[-> Hno]].
  - symmetry. now apply loads_complete, H.
  - symmetry. apply loads_malformed. intros v Hd. now apply (Hno v), H.
Qed.

(** X11. Whitespace (spaces, tabs, line feeds, carriage returns) before
    and after the completion changes nothing: the same value is returned,
    or the same kind of exception raised, as without it.  (Where in the
    text a [JSONDecodeError] was met is not part of the model.) *)
Theorem surrounding_whitespace_is_ignored
  (self : _BaseLLMGenerator.t) (raw_output padded : ChatMessage) w1 w2 :
  all_ws w1 = true -> all_ws w2 = true ->
  content padded = w1 ++ content raw_output ++ w2 ->
  _parse_output self padded = _parse_output self raw_output.
Proof.
  intros Hw1 Hw2 Heq. unfold _parse_output. rewrite Heq.
  rewrite (loads_same_documents (w1 ++ content raw_output ++ w2) (content raw_output));
    [reflexivity|].
  intros v. now apply document_ws.
Qed.

(** Duplicate keys *)






End CompletionText.

(** ** Plain templates: what [str.format] makes of them *)

Section PlainTemplates.

Import Format.

Lemma scan_literal_text s t :
  has_brace s = false ->
  scan_literal (s ++ t) = (s ++ fst (scan_literal t), snd (scan_literal t)).
Proof.
  induction s as [|c s IH]; cbn [append has_brace scan_literal].
  - now destruct (scan_literal t).
  - intros [Hc Hs]%orb_false_iff. rewrite Hc, (IH Hs). reflexivity.
Qed.

(** Literal text in front of a template goes in front of its first
    literal run. *)
Lemma MarkupIterator_next_text s t :
  has_brace s = false ->
  MarkupIterator_next (s ++ t) =
  match MarkupIterator_next t with
  | Ok (lit, fld, rest) => Ok (s ++ lit, fld, rest)
  | Raise e => Raise e
  end.
Proof.
  intros Hs. unfold MarkupIterator_next. rewrite (scan_literal_text s t Hs).
  destruct (scan_literal t) as [l s1]. cbn [fst snd].
  destruct s1 as [|c [|c' r']]; try reflexivity.
  destruct (c' =? c)%char; [now rewrite append_assoc|].
  destruct (c =? "}")%char; [reflexivity|].
  destruct (parse_field _) as [[f rest]|e]; reflexivity.
Qed.

Lemma scan_field_name_unclosed s :
  has_rbrace s = false ->
  forall b,
    scan_field_name b s = Raise ValueError \/
    exists n t r, scan_field_name b s = Ok (n, t, r) /\
                  (t =? "}")%char = false /\ has_rbrace r = false.
Proof.
  induction s as [|c s IH]; intros Hs b; [now left|].
  cbn [has_rbrace] in Hs. apply orb_false_iff in Hs as [Hc Hs].
  cbn [scan_field_name]. destruct b.
  - destruct (IH Hs (negb (c =? "]")%char)) as [->|(n & t & r & -> & Ht & Hr)];
      [now left|]. right. cbn [bind]. eauto 7.
  - destruct (c =? "{")%char; [now left|]. rewrite Hc. cbn [orb].
    destruct ((c =? ":")%char || (c =? "!")%char) eqn:Hsep.
    + right. exists "", c, s. auto.
    + destruct (IH Hs (c =? "[")%char) as [->|(n & t & r & -> & Ht & Hr)];
        [now left|]. right. cbn [bind]. eauto 7.
Qed.

Lemma scan_format_spec_unclosed s :
  has_rbrace s = false -> forall d, scan_format_spec d s = Raise ValueError.
Proof.
  induction s as [|c s IH]; intros Hs d; [reflexivity|].
  cbn [has_rbrace] in Hs. apply orb_false_iff in Hs as [Hc Hs].
  cbn [scan_format_spec]. rewrite Hc, (IH Hs). reflexivity.
Qed.

Lemma parse_field_unclosed s :
  has_rbrace s = false -> parse_field s = Raise ValueError.
Proof.
  intros Hs. unfold parse_field.
  destruct (scan_field_name_unclosed s Hs false) as [->|(n & t & r & -> & Ht & Hr)];
    [reflexivity|].
  cbn [bind]. rewrite Ht.
  destruct (t =? ":")%char; [now rewrite (scan_format_spec_unclosed r Hr)|].
  destruct r as [|conv [|c r2]]; try reflexivity.
  cbn [has_rbrace] in Hr. apply orb_false_iff in Hr as [_ Hr].
  apply orb_false_iff in Hr as [Hc Hr]. rewrite Hc.
  destruct (c =? ":")%char; [now rewrite (scan_format_spec_unclosed r2 Hr)|reflexivity].
Qed.

Section Level.

Variable kw : list (string * pyobj).
Variable expand : string -> res string.

Lemma do_markup_step n c s :
  do_markup kw expand (S n) (String c s) =
  ('(lit, fld, rest) <- MarkupIterator_next (String c s) ;;
   v <- match fld with
        | Some f => output_markup kw expand f
        | None => Ok ""
        end ;;
   out <- do_markup kw expand n rest ;;
   Ok (lit ++ v ++ out))%res.
Proof. reflexivity. Qed.

Lemma do_markup_nil n : do_markup kw expand n "" = Ok "".
Proof. now destruct n. Qed.

Lemma do_markup_text s t n :
  has_brace s = false -> String.length (s ++ t) <= n ->
  do_markup kw expand n (s ++ t) =
  (b <- do_markup kw expand n t ;; Ok (s ++ b))%res.
Proof.
  intros Hs Hn. destruct s as [|a s].
  - cbn [append]. now destruct (do_markup kw expand n t).
  - destruct n as [|n]; [cbn in Hn; lia|].
    cbn [append]. rewrite do_markup_step.
    change (String a (s ++ t)) with (String a s ++ t).
    rewrite (MarkupIterator_next_text _ t Hs).
    destruct t as [|c t].
    + cbn. rewrite ?do_markup_nil. cbn. now rewrite !append_nil_r.
    + rewrite do_markup_step.
      destruct (MarkupIterator_next (String c t)) as [[[lit fld] rest]|e];
        [|reflexivity].
      cbn [bind].
      destruct (match fld with Some f => output_markup kw expand f | None => Ok "" end)
        as [v|e]; [|reflexivity].
      cbn [bind]. destruct (do_markup kw expand n rest) as [out|e]; [|reflexivity].
      cbn [bind]. now rewrite append_assoc.
Qed.

Lemma plain_char_spec c :
  plain_char c = true ->
  (c =? "{")%char = false /\ (c =? "}")%char = false /\ (c =? ":")%char = false /\
  (c =? "!")%char = false /\ (c =? ".")%char = false /\ (c =? "[")%char = false.
Proof.
  unfold plain_char. intros [Hc%negb_true_iff _]%andb_true_iff.
  repeat (apply orb_false_iff in Hc; destruct Hc as [Hc ?]). auto 10.
Qed.

Lemma scan_field_name_plain n tail :
  plain_chars n = true ->
  scan_field_name false (n ++ String "}" tail) = Ok (n, "}"%char, tail).
Proof.
  induction n as [|c n IH]; [reflexivity|].
  intros [Hc Hn]%andb_true_iff. cbn [append scan_field_name].
  destruct (plain_char_spec c Hc) as (H1 & H2 & H3 & H4 & _ & H6).
  rewrite H1, H2, H3, H4, H6. cbn [orb]. rewrite (IH Hn). reflexivity.
Qed.

Lemma split_first_plain n : plain_chars n = true -> split_first n = (n, "").
Proof.
  induction n as [|c n IH]; [reflexivity|].
  intros [Hc Hn]%andb_true_iff. cbn [split_first].
  destruct (plain_char_spec c Hc) as (_ & _ & _ & _ & H5 & H6).
  rewrite H5, H6. cbn [orb]. rewrite (IH Hn). reflexivity.
Qed.

Lemma output_markup_plain n :
  plain_name n = true ->
  output_markup kw expand (Field n None "") = render_piece kw (Name n).
Proof.
  unfold plain_name. intros [[_ Hd%negb_true_iff]%andb_true_iff Hp]%andb_true_iff.
  unfold output_markup, get_field_object. cbn [field_name conversion format_spec].
  rewrite (split_first_plain n Hp). unfold get_value, too_many_digits.
  rewrite Hd, andb_false_r. cbn [andb render_piece].
  destruct (dict_get kw n) as [o|]; reflexivity.
Qed.

Lemma plain_name_head n :
  plain_name n = true ->
  exists c n', n = String c n' /\ (c =? "{")%char = false.
Proof.
  unfold plain_name. destruct n as [|c n']; [discriminate|].
  intros [_ [Hc _]%andb_true_iff]%andb_true_iff.
  exists c, n'. split; [reflexivity|]. now apply plain_char_spec.
Qed.

(** A plain field at the head of a text is rendered, and the rest
    goes on after it. *)
Lemma do_markup_name nm t n :
  plain_name nm = true ->
  do_markup kw expand (S n) (String "{" (nm ++ String "}" t)) =
  (a <- render_piece kw (Name nm) ;;
   b <- do_markup kw expand n t ;;
   Ok (a ++ b))%res.
Proof.
  intros Hnm. rewrite do_markup_step.
  destruct (plain_name_head nm Hnm) as (c & nm' & Heq & Hc).
  assert (Hp : plain_chars nm = true).
  { unfold plain_name in Hnm. now apply andb_true_iff in Hnm as [_ ?]. }
  assert (Hnext : MarkupIterator_next (String "{" (nm ++ String "}" t)) =
                  Ok ("", Some (Field nm None ""), t)).
  { unfold MarkupIterator_next. cbn [scan_literal is_brace Ascii.eqb Bool.eqb orb].
    change (is_brace "{") with true. cbv iota.
    rewrite Heq. cbn [append]. rewrite Hc. change (("{" =? "}")%char) with false.
    cbv iota. rewrite <- Heq.
    change (String c (nm' ++ String "}" t)) with (String c nm' ++ String "}" t).
    rewrite <- Heq. unfold parse_field.
    rewrite (scan_field_name_plain nm t Hp). reflexivity. }
  rewrite Hnext. cbn [bind]. rewrite (output_markup_plain nm Hnm).
  destruct (render_piece kw (Name nm)) as [a|e]; [|reflexivity].
  cbn [bind]. destruct (do_markup kw expand n t); reflexivity.
Qed.

Lemma do_markup_brace c t n :
  is_brace c = true ->
  do_markup kw expand (S n) (String c (String c t)) =
  (b <- do_markup kw expand n t ;; Ok (String c b))%res.
Proof.
  intros Hc. rewrite do_markup_step. unfold MarkupIterator_next.
  cbn [scan_literal]. rewrite Hc, Ascii.eqb_refl. cbn [bind append].
  destruct (do_markup kw expand n t); reflexivity.
Qed.

(** A plain template, and whatever text follows it. *)
Lemma do_markup_pieces ps :
  forallb plain_piece ps = true ->
  forall tail n,
    String.length (template_of ps ++ tail) <= n ->
    do_markup kw expand n (template_of ps ++ tail) =
    (a <- render kw ps ;;
     b <- do_markup kw expand (String.length tail) tail ;;
     Ok (a ++ b))%res.
Proof.
  induction ps as [|p ps IH]; intros Hps tail n Hn.
  - cbn [template_of append render bind] in *.
    rewrite (do_markup_fuel kw expand n (String.length tail)) by lia.
    now destruct (do_markup kw expand _ tail).
  - cbn [forallb] in Hps. apply andb_true_iff in Hps as [Hp Hps].
    cbn [template_of render] in *. rewrite append_assoc in *.
    destruct p as [s|c|nm]; cbn [piece_text plain_piece render_piece bind] in *.
    + apply negb_true_iff in Hp.
      rewrite (do_markup_text s _ n Hp Hn).
      rewrite (IH Hps tail n) by (rewrite length_append in Hn; lia).
      destruct (render kw ps) as [a|e]; [|reflexivity]. cbn [bind].
      destruct (do_markup kw expand _ tail); [|reflexivity].
      cbn [bind]. now rewrite append_assoc.
    + cbn [append] in *. destruct n as [|n]; [cbn in Hn; lia|].
      rewrite (do_markup_brace c _ n Hp).
      rewrite (IH Hps tail n) by (cbn [String.length] in Hn; lia).
      destruct (render kw ps) as [a|e]; [|reflexivity]. cbn [bind].
      destruct (do_markup kw expand _ tail); reflexivity.
    + cbn [append] in *. rewrite append_assoc in *. cbn [append] in *.
      destruct n as [|n]; [cbn in Hn; lia|].
      rewrite (do_markup_name nm _ n Hp). cbn [render_piece].
      destruct (dict_get kw nm) as [o|]; [|reflexivity].
      destruct (obj_format o "") as [a|e]; [|reflexivity]. cbn [bind].
      rewrite (IH Hps tail n)
        by (cbn [String.length] in Hn; rewrite length_append in Hn;
            cbn [String.length] in Hn; lia).
      destruct (render kw ps) as [a'|e]; [|reflexivity]. cbn [bind].
      destruct (do_markup kw expand _ tail); [|reflexivity].
      cbn [bind]. now rewrite append_assoc.
Qed.

(** A single closing brace, and an opening brace that is never closed. *)
Lemma do_markup_lone_closing t n :
  head_is (fun c => (c =? "}")%char) t = false ->
  do_markup kw expand (S n) (String "}" t) = Raise ValueError.
Proof.
  intros Ht. rewrite do_markup_step. unfold MarkupIterator_next.
  cbn [scan_literal]. change (is_brace "}") with true. cbv iota.
  destruct t as [|c' r]; [reflexivity|]. cbn [head_is] in Ht. now rewrite Ht.
Qed.

Lemma do_markup_unclosed t n :
  head_is (fun c => (c =? "{")%char) t = false -> has_rbrace t = false ->
  do_markup kw expand (S n) (String "{" t) = Raise ValueError.
Proof.
  intros Ht Hr. rewrite do_markup_step. unfold MarkupIterator_next.
  cbn [scan_literal]. change (is_brace "{") with true. cbv iota.
  destruct t as [|c' r]; [reflexivity|]. cbn [head_is] in Ht. rewrite Ht.
  change (("{" =? "}")%char) with false. cbv iota.
  now rewrite (parse_field_unclosed _ Hr).
Qed.

End Level.

Lemma str_format_pieces kw ps :
  forallb plain_piece ps = true ->
  str_format kw (template_of ps) = render kw ps.
Proof.
  intros Hps. unfold str_format. cbn [build_string].
  rewrite <- (append_nil_r (template_of ps)) at 2.
  rewrite (do_markup_pieces kw _ ps Hps "" _)
    by (rewrite append_nil_r; lia).
  destruct (render kw ps) as [a|e]; [|reflexivity].
  cbn. now rewrite append_nil_r.
Qed.

Lemma str_format_lone_closing kw before after :
  has_brace before = false ->
  head_is (fun c => (c =? "}")%char) after = false ->
  str_format kw (before ++ String "}" after) = Raise ValueError.
Proof.
  intros Hb Ha. unfold str_format. cbn [build_string].
  rewrite (do_markup_text kw _ before _ _ Hb) by lia.
  rewrite length_append. cbn [String.length].
  replace (String.length before + S (String.length after))
    with (S (String.length before + String.length after)) by lia.
  now rewrite do_markup_lone_closing.
Qed.

Lemma str_format_unclosed kw before after :
  has_brace before = false ->
  head_is (fun c => (c =? "{")%char) after = false -> has_rbrace after = false ->
  str_format kw (before ++ String "{" after) = Raise ValueError.
Proof.
  intros Hb Ha Hr. unfold str_format. cbn [build_string].
  rewrite (do_markup_text kw _ before _ _ Hb) by lia.
  rewrite length_append. cbn [String.length].
  replace (String.length before + S (String.length after))
    with (S (String.length before + String.length after)) by lia.
  now rewrite do_markup_unclosed.
Qed.

End PlainTemplates.

(** ** Further properties of the template-driven generator *)

Section FurtherTemplates.

Context {RT : Runtime}.
Import _BaseLLMGenerator LLMBasedDataGenerator.

(** When the prompt does not render, nothing else happens. *)
Lemma generate_dataset_unbuilt (g : LLMBasedDataGenerator.t) model num_samples
  column_types log e :
  Format.str_format (format_kwargs g model num_samples) (prompt g) = Raise e ->
  generate_dataset model num_samples column_types {| this := g; calls := log |} =
  (Raise e, {| this := g; calls := log |}).
Proof.
  intros He. rewrite generate_dataset_run. cbn.
  unfold LLMBasedDataGenerator._format_messages. now rewrite He.
Qed.


(** X14. Where the prompt has the field [{languages}], the instruction
    has the language tags of the generator, in their order, separated by
    a comma and a space.  ([str] arguments format as themselves.) *)
Theorem languages_field_renders_the_joined_tags
  (g : LLMBasedDataGenerator.t) model num_samples column_types before after :
  (forall s, Format.obj_format (str_object s) "" = Ok s) ->
  has_brace before = false -> has_brace after = false ->
  prompt g = before ++ "{languages}" ++ after ->
  LLMBasedDataGenerator._format_messages g model num_samples column_types =
  Ok (prefix_messages g ++
      [user_message (before ++ join ", " (languages (super g)) ++ after)])%list.
Proof.
  intros Hstr Hb Ha Hprompt. unfold LLMBasedDataGenerator._format_messages.
  replace (prompt g) with (template_of [Text before; Name "languages"; Text after])
    by (rewrite Hprompt; cbn; now rewrite append_nil_r).
  rewrite str_format_pieces by (cbn; now rewrite Hb, Ha).
  cbn. rewrite Hstr. cbn. now rewrite append_nil_r.
Qed.

(** X15. A prompt whose first brace stands alone is never sent.  When it
    is a closing brace that is not doubled, or an opening brace that is
    not doubled and has no closing brace after it, [generate_dataset]
    raises a [ValueError] and makes no call. *)
Theorem unbalanced_brace_is_a_ValueError
  (g : LLMBasedDataGenerator.t) model num_samples column_types log before after :
  has_brace before = false ->
  (prompt g = before ++ String "}" after /\
   head_is (fun c => (c =? "}")%char) after = false) \/
  (prompt g = before ++ String "{" after /\
   head_is (fun c => (c =? "{")%char) after = false /\ has_rbrace after = false) ->
  generate_dataset model num_samples column_types {| this := g; calls := log |} =
  (Raise ValueError, {| this := g; calls := log |}).
Proof.
  intros Hb [[Hprompt Ha]|(Hprompt & Ha & Hr)]; apply generate_dataset_unbuilt;
    rewrite Hprompt.
  - now apply str_format_lone_closing.
  - now apply str_format_unclosed.
Qed.

(** X16. [DEFAULT_GENERATE_INPUTS_PROMPT] does not go with
    [LLMBasedDataGenerator]: its first field is [{model_name}], which is
    not among the arguments [_format_messages] supplies.  A generator with
    that prompt raises [KeyError('model_name')] on every invocation, for
    every model, number of samples and language list, before any call. *)
Theorem default_inputs_prompt_is_never_sent
  (g : LLMBasedDataGenerator.t) model num_samples column_types log :
  prompt g = DEFAULT_GENERATE_INPUTS_PROMPT ->
  generate_dataset model num_samples column_types {| this := g; calls := log |} =
  (Raise (KeyError "model_name"), {| this := g; calls := log |}).
Proof.
  intros Hprompt. apply generate_dataset_unbuilt. rewrite Hprompt.
  pose proof (first_field_missing_is_KeyError (format_kwargs g model num_samples)
                DEFAULT_GENERATE_INPUTS_PROMPT) as H.
  remember (Format.MarkupIterator_next DEFAULT_GENERATE_INPUTS_PROMPT) as r eqn:Hr.
  vm_compute in Hr. subst r.
  specialize (H _ _ _ eq_refl eq_refl). apply H.
  apply format_kwargs_missing. cbn. intuition discriminate.
Qed.

(** X17. The model, the number of samples and the column types reach
    the client through the fields of the prompt and in no other way: a
    prompt without a [{num_samples}] field gives the same messages whatever
    number is asked for, a prompt without a [{model}] field gives the same
    messages for every model, and the column types never matter. *)
Theorem request_depends_on_the_fields_only
  (g : LLMBasedDataGenerator.t) model model' num_samples num_samples'
  column_types column_types' :
  (~ In "num_samples" (referenced_names (prompt g)) ->
   LLMBasedDataGenerator._format_messages g model num_samples column_types =
   LLMBasedDataGenerator._format_messages g model num_samples' column_types') /\
  (~ In "model" (referenced_names (prompt g)) ->
   LLMBasedDataGenerator._format_messages g model num_samples column_types =
   LLMBasedDataGenerator._format_messages g model' num_samples column_types').
Proof.
  unfold LLMBasedDataGenerator._format_messages. split; intros Hno.
  - rewrite (str_format_agree _ (format_kwargs g model num_samples')); [reflexivity|].
    intros k Hk. unfold format_kwargs. cbn [dict_get].
    destruct (k =? "model"); [reflexivity|].
    destruct (String.eqb_spec k "num_samples") as [->|]; [now destruct Hno|reflexivity].
  - rewrite (str_format_agree _ (format_kwargs g model' num_samples)); [reflexivity|].
    intros k Hk. unfold format_kwargs. cbn [dict_get].
    destruct (String.eqb_spec k "model") as [->|]; [now destruct Hno|reflexivity].
Qed.


End FurtherTemplates.

(** ** The dataset and its name *)

Section FurtherDataset.

Context {RT : Runtime} {Self : Type} {G : _BaseLLMGenerator.Generator Self}.
Import _BaseLLMGenerator Json JsonText.

Lemma append_inj_l p a b : p ++ a = p ++ b -> a = b.
Proof. induction p as [|c p IH]; cbn; [auto|]. intros [= H]. auto. Qed.

(** X19. Two datasets have the same name exactly when their models
    have the same name: the dataset name tells the models apart as well
    as their own names do, and depends on nothing else. *)
Theorem dataset_name_identifies_the_model_name
  (self1 self2 : _BaseLLMGenerator.t) (model1 model2 : BaseModel.t) :
  _make_dataset_name self1 model1 = _make_dataset_name self2 model2 <->
  BaseModel.name model1 = BaseModel.name model2.
Proof.
  unfold _make_dataset_name. split; [apply append_inj_l|now intros ->].
Qed.

(** X20. No dataset without a well-formed answer: whenever
    [generate_dataset] returns a dataset, the completion was a well-formed
    JSON document standing for an object with the output key, and the data
    frame was built from the whole value under that key. *)
Theorem dataset_is_built_from_the_value_under_the_key
  model num_samples column_types (w : World Self) ds key :
  truthy_key (_output_key (__class__ (base (this w)))) = Some key ->
  fst (generate_dataset model num_samples column_types w) = Ok ds ->
  exists msgs out d v,
    _format_messages (this w) model num_samples column_types = Ok msgs /\
    complete (llm_client (base (this w))) (calls w)
      (issued_call (base (this w)) msgs) = Ok out /\
    document (content out) (PDict d) /\
    dict_get d key = Some v /\
    pd_DataFrame v = Ok (Dataset.df ds).
Proof.
  intros Hkey Hds.
  destruct (generate_dataset_inv _ _ _ _ _ Hds)
    as (msgs & out & generated & Hm & Hc & Hp & Hf & _).
  destruct (parse_output_inv _ _ _ _ Hkey Hp) as (d & Hd & Hg).
  exists msgs, out, d, generated. auto.
Qed.

End FurtherDataset.

(** ** The pipeline from end to end *)

Section EndToEnd.

Context {RT : Runtime}.
Import _BaseLLMGenerator LLMBasedDataGenerator Json JsonText.


End EndToEnd.

Section GenerationFailure.

Context {RT : Runtime} {Self : Type} {G : _BaseLLMGenerator.Generator Self}.
Import _BaseLLMGenerator Json JsonText.


End GenerationFailure.

(** ** The further properties at work *)

Section FurtherScenarios.

Import _BaseLLMGenerator LLMBasedDataGenerator Json JsonText Example.
#[local] Existing Instance Example.runtime.

Lemma client_failure_passes_through_witness :
  let g := LLMBasedDataGenerator.__init__ LLMBasedDataGenerator.class plain_prompt
             None None None (Some (failing_client (OtherError "ConnectionError")))
             None in
  generate_dataset loan_model 3 None (fresh g) =
  (Raise (OtherError "ConnectionError"),
   {| this := g;
      calls := [issued_call (super g)
                  [user_message "Generate 3 inputs for Loan Approval."]] |}).
Proof.
  cbv zeta.
  exact (client_failure_passes_through (RT := runtime)
           (G := LLMBasedDataGenerator.generator) loan_model 3 None
           (fresh (LLMBasedDataGenerator.__init__ LLMBasedDataGenerator.class
                     plain_prompt None None None
                     (Some (failing_client (OtherError "ConnectionError"))) None))
           [user_message "Generate 3 inputs for Loan Approval."]
           (OtherError "ConnectionError") eq_refl eq_refl).
Defined.







Lemma completion_must_begin_with_a_value_witness :
  _parse_output (super (generator_for loan_prompt ["en"] ""))
    {| role := "assistant"; content := json_text "Here you are: {'inputs': []}" |} =
  Raise (LLMGenerationError "Could not parse generated data" JSONDecodeError).
Proof.
  apply (completion_must_begin_with_a_value
           (super (generator_for loan_prompt ["en"] ""))
           {| role := "assistant";
              content := json_text "Here you are: {'inputs': []}" |}).
  reflexivity.
Defined.

Lemma surrounding_whitespace_is_ignored_witness :
  _parse_output (super (generator_for loan_prompt ["en"] ""))
    {| role := "assistant";
       content := String "010" (" " ++ loan_answer ++ String "013" (String "010" "")) |} =
  _parse_output (super (generator_for loan_prompt ["en"] ""))
    {| role := "assistant"; content := loan_answer |}.
Proof.
  apply (surrounding_whitespace_is_ignored
           (super (generator_for loan_prompt ["en"] ""))
           {| role := "assistant"; content := loan_answer |}
           {| role := "assistant";
              content := String "010" (" " ++ loan_answer
                                         ++ String "013" (String "010" "")) |}
           (String "010" " ") (String "013" (String "010" ""))).
  - reflexivity.
  - reflexivity.
  - reflexivity.
Defined.



Lemma languages_field_renders_the_joined_tags_witness :
  LLMBasedDataGenerator._format_messages
    (generator_for "Write in one of: {languages}." ["en"; "fr"; "de"] loan_answer)
    loan_model 3 None =
  Ok [user_message "Write in one of: en, fr, de."].
Proof.
  apply (languages_field_renders_the_joined_tags
           (generator_for "Write in one of: {languages}." ["en"; "fr"; "de"] loan_answer)
           loan_model 3 None "Write in one of: " ".").
  - intros s. reflexivity.
  - reflexivity.
  - reflexivity.
  - reflexivity.
Defined.

Lemma unbalanced_brace_is_a_ValueError_witness :
  generate_dataset loan_model 3 None
    (fresh (generator_for "Answer with a set such as 1, 2}." ["en"] loan_answer)) =
  (Raise ValueError,
   fresh (generator_for "Answer with a set such as 1, 2}." ["en"] loan_answer)).
Proof.
  apply (unbalanced_brace_is_a_ValueError
           (generator_for "Answer with a set such as 1, 2}." ["en"] loan_answer)
           loan_model 3 None [] "Answer with a set such as 1, 2" ".").
  - reflexivity.
  - left. split; reflexivity.
Defined.

Lemma default_inputs_prompt_is_never_sent_witness :
  generate_dataset loan_model 3 None
    (fresh (generator_for DEFAULT_GENERATE_INPUTS_PROMPT ["en"; "fr"] loan_answer)) =
  (Raise (KeyError "model_name"),
   fresh (generator_for DEFAULT_GENERATE_INPUTS_PROMPT ["en"; "fr"] loan_answer)).
Proof.
  apply (default_inputs_prompt_is_never_sent
           (generator_for DEFAULT_GENERATE_INPUTS_PROMPT ["en"; "fr"] loan_answer)
           loan_model 3 None []).
  reflexivity.
Defined.

Lemma dataset_is_built_from_the_value_under_the_key_witness :
  let w := fresh (generator_for loan_prompt ["en"] loan_answer) in
  exists msgs out d v,
    LLMBasedDataGenerator._format_messages (this w) loan_model 3 None = Ok msgs /\
    complete (llm_client (super (this w))) (calls w)
      (issued_call (super (this w)) msgs) = Ok out /\
    document (content out) (PDict d) /\
    dict_get d "inputs" = Some v /\
    pd_DataFrame (Runtime := runtime) v = Ok loan_records.
Proof.
  cbv zeta.
  refine (dataset_is_built_from_the_value_under_the_key (RT := runtime)
           (G := LLMBasedDataGenerator.generator)
           loan_model 3 None (fresh (generator_for loan_prompt ["en"] loan_answer))
           {| Dataset.df := (loan_records : @DataFrame runtime);
              Dataset.name := "Synthetic Test Dataset for Loan Approval";
              Dataset.validation := false;
              Dataset.column_types := None |} "inputs" _ _).
  - reflexivity.
  - vm_compute. reflexivity.
Defined.



End FurtherScenarios.
